(** * MCP3208 driver: a shallow embedding of [src/Mcp3208.cpp]

    The driver talks to a 12-bit, 8-channel ADC over SPI.  Every method of
    the C++ class [MCP3208] is translated below into a computation over an
    explicit state made of the object's fields ([Device]) and of the
    platform the code runs on ([World]: the SPI peripheral, the microsecond
    counter and a trace of the platform calls made so far).  Arguments are
    values of the C++ parameter types; every conversion made inside a body
    is written out. *)

From stdpp Require Import base numbers list.
From Stdlib Require Import ZArith Lia.

Local Open Scope Z_scope.

(** ** Fixed-width integers

    C++ integers are modelled as [Z]; every conversion to a fixed-width
    type is written out. *)

Definition u8 (x : Z) : Z := x mod 2 ^ 8.
Definition u16 (x : Z) : Z := x mod 2 ^ 16.
Definition u32 (x : Z) : Z := x mod 2 ^ 32.

(** Conversion to [int16_t]: the low 16 bits, read in two's complement. *)
Definition s16 (x : Z) : Z :=
  let y := u16 x in if y <? 2 ^ 15 then y else y - 2 ^ 16.

(** ** Outcomes

    A call either returns, or runs into an integer division by zero
    (undefined behaviour in C++), or is still spinning in the unbounded
    [while] loop of [readn_if] when the fuel given to the model runs out. *)

Inductive outcome (A : Type) : Type :=
| Done (a : A)
| Undefined
| Spinning.

Arguments Done {A} a.
Arguments Undefined {A}.
Arguments Spinning {A}.

(** ** The object and its platform *)

(** The data members of [MCP3208], in the order of the constructor's
    initialiser list.  Their declarations are in [Mcp3208.h], which is not
    among the sources: [mVref], [mCsPin] and [mSpi] take the types of the
    constructor's parameters ([uint16_t], [uint8_t], [SPIClass *], a handle
    naming the peripheral), and [mSplSpeed] holds the [uint32_t] that
    [testSplSpeed] returns. *)
Record Device : Type := mkDevice {
  mVref : Z;
  mCsPin : Z;
  mSplSpeed : Z;
  mSpi : nat
}.

Inductive Level : Type := LOW | HIGH.

(** The calls the driver makes to the Arduino core, as they are observed
    from outside. *)
Inductive Event : Type :=
| DigitalWrite (pin : Z) (lvl : Level)
| SpiExchange (bus : nat) (sent received : Z)
| Micros (now : Z)
| DelayMicroseconds (us : Z).

(** The platform: [miso k] is what the bus answers at its [k]-th byte
    exchange and [timer k] what the [k]-th reading of [micros()] shows;
    [exchanged] and [readings] count the exchanges and readings made so
    far, [trace] lists all platform calls in the order they were made. *)
Record World : Type := mkWorld {
  miso : nat -> Z;
  exchanged : nat;
  timer : nat -> Z;
  readings : nat;
  trace : list Event
}.

Definition State : Type := Device * World.

(** ** The monad of driver computations *)

Definition M (A : Type) : Type := State -> outcome (A * State).

Definition ret {A} (a : A) : M A := fun s => Done (a, s).

Definition bind {A B} (m : M A) (k : A -> M B) : M B :=
  fun s =>
    match m s with
    | Done (a, s') => k a s'
    | Undefined => Undefined
    | Spinning => Spinning
    end.

Declare Scope driver_scope.
Delimit Scope driver_scope with driver.
Notation "x <- m ; k" := (bind m (fun x => k))
  (at level 20, m at level 100, k at level 200, only parsing) : driver_scope.
Notation "m ;; k" := (bind m (fun _ => k))
  (at level 100, k at level 200, only parsing, right associativity)
  : driver_scope.
Local Open Scope driver_scope.

(** [this->field] and the assignment to [mSplSpeed]. *)
Definition this : M Device := fun s => Done (fst s, s).

Definition set_mSplSpeed (v : Z) : M unit :=
  fun '(d, w) =>
    Done (tt, ({| mVref := mVref d; mCsPin := mCsPin d;
                  mSplSpeed := v; mSpi := mSpi d |}, w)).

Definition log (e : Event) (w : World) : World :=
  {| miso := miso w; exchanged := exchanged w;
     timer := timer w; readings := readings w;
     trace := trace w ++ [e] |}.

(** *** Arduino core *)

Definition digitalWrite (pin : Z) (lvl : Level) : M unit :=
  fun '(d, w) => Done (tt, (d, log (DigitalWrite pin lvl) w)).

(** [SPIClass::transfer(uint8_t) -> uint8_t] on the peripheral [bus]. *)
Definition spi_transfer (bus : nat) (out : Z) : M Z :=
  fun '(d, w) =>
    let r := u8 (miso w (exchanged w)) in
    Done (r, (d, {| miso := miso w; exchanged := S (exchanged w);
                    timer := timer w; readings := readings w;
                    trace := trace w ++ [SpiExchange bus out r] |})).

(** [micros() -> uint32_t]. *)
Definition micros : M Z :=
  fun '(d, w) =>
    let t := u32 (timer w (readings w)) in
    Done (t, (d, {| miso := miso w; exchanged := exchanged w;
                    timer := timer w; readings := S (readings w);
                    trace := trace w ++ [Micros t] |})).

Definition delayMicroseconds (us : Z) : M unit :=
  fun '(d, w) => Done (tt, (d, log (DelayMicroseconds us) w)).

(** *** Control structures *)

(** [for (uint16_t i = i0; i < i0 + n; i++) acc = body(i, acc);] *)
Fixpoint for_upto {A} (n i : nat) (body : nat -> A -> M A) (acc : A) : M A :=
  match n with
  | O => ret acc
  | S n' => acc' <- body i acc ; for_upto n' (S i) body acc'
  end.

(** Unsigned 32-bit division; a zero divisor is undefined behaviour. *)
Definition udiv (n d : Z) : M Z :=
  fun s => if d =? 0 then Undefined else Done (n / d, s).

(** ** Declarations of the header *)

(** Modelled from the spec: [kRes] is declared in [Mcp3208.h], which is
    not part of the sources; the resolution constant is fixed at 4096
    possible codes (12 bits). *)
Definition kRes : Z := 4096.

(** Modelled from the spec: the union [SpiData] is declared in
    [Mcp3208.h]; it overlays a 16-bit [value] with the two bytes [hiByte]
    and [loByte], which the spec reads as [value >> 8] and
    [value & 0xFF]. *)
Definition hiByte (value : Z) : Z := Z.land (Z.shiftr value 8) 255.
Definition loByte (value : Z) : Z := Z.land value 255.
Definition SpiData (hi lo : Z) : Z := Z.lor (Z.shiftl (u8 hi) 8) (u8 lo).

(** ** The driver *)

(** [#define div_round(n,d) (((n) + ((d) >> 2)) / (d))]; at both of its
    uses one operand is a [uint32_t], so the sum and the quotient are
    computed on 32 unsigned bits. *)
Definition div_round (n d : Z) : M Z :=
  udiv (u32 (n + Z.shiftr d 2)) d.

(** [MCP3208::MCP3208(uint16_t vref, uint8_t csPin, SPIClass *spi)] *)
Definition MCP3208 (vref csPin : Z) (spi : nat) : Device :=
  {| mVref := u16 vref; mCsPin := u8 csPin; mSplSpeed := 0; mSpi := spi |}.

(** [SpiData MCP3208::createCmd(Channel ch)] *)
Definition createCmd (ch : Z) : Z :=
  u16 (Z.lor 1024 (Z.shiftl ch 6)).

(** [uint16_t MCP3208::transfer(SpiData cmd) const] *)
Definition transfer (cmd : Z) : M Z :=
  d <- this ;
  digitalWrite (mCsPin d) LOW ;;
  spi_transfer (mSpi d) (hiByte cmd) ;;
  r <- spi_transfer (mSpi d) (loByte cmd) ;
  let adc_hi := Z.land r 15 in
  adc_lo <- spi_transfer (mSpi d) 0 ;
  digitalWrite (mCsPin d) HIGH ;;
  ret (SpiData adc_hi adc_lo).

(** [uint16_t MCP3208::read(Channel ch) const] *)
Definition read (ch : Z) : M Z :=
  transfer (createCmd ch).

(** [void MCP3208::readn(Channel ch, T *data, uint16_t num) const]; the
    buffer [data] is passed in and handed back, [static_cast<T>] is the
    identity on 12-bit codes for each of the instantiated types.  A write
    past the end of the buffer is undefined in C++ and leaves the list as
    it is here; the statements below take buffers of at least [num]
    elements. *)
Definition readn (ch : Z) (data : list Z) (num : Z) : M (list Z) :=
  let cmd := createCmd ch in
  for_upto (Z.to_nat num) 0
    (fun i data => v <- transfer cmd ; ret (<[i := v]> data)) data.

(** [while (!p(transfer(cmd))) {}] *)
Fixpoint wait_until (fuel : nat) (p : Z -> bool) (cmd : Z) : M unit :=
  match fuel with
  | O => fun _ => Spinning
  | S fuel' =>
      v <- transfer cmd ;
      if p v then ret tt else wait_until fuel' p cmd
  end.

(** [void MCP3208::readn_if(Channel ch, T *data, uint16_t num,
    const PredicateFn &p) const] *)
Definition readn_if (fuel : nat) (ch : Z) (data : list Z) (num : Z)
    (p : Z -> bool) : M (list Z) :=
  let cmd := createCmd ch in
  wait_until fuel p cmd ;;
  for_upto (Z.to_nat num) 0
    (fun i data => v <- transfer cmd ; ret (<[i := v]> data)) data.

(** [uint32_t MCP3208::testSplSpeed(Channel ch, uint16_t num) const] *)
Definition testSplSpeed_n (ch num : Z) : M Z :=
  t1 <- micros ;
  for_upto (Z.to_nat num) 0 (fun _ _ => read ch ;; ret tt) tt ;;
  t2 <- micros ;
  div_round (u32 (u32 (t2 - t1) * 1000)) num.

(** [uint32_t MCP3208::testSplSpeed(Channel ch) const] *)
Definition testSplSpeed (ch : Z) : M Z :=
  testSplSpeed_n ch 64.

(** [void MCP3208::calibrate(Channel ch)] *)
Definition calibrate (ch : Z) : M unit :=
  v <- testSplSpeed_n ch 256 ;
  set_mSplSpeed v.

(** [uint16_t MCP3208::getSplDelay(Channel ch, uint32_t splFreq)] *)
Definition getSplDelay (ch splFreq : Z) : M Z :=
  splTime <- div_round 1000000000 splFreq ;
  d <- this ;
  (if mSplSpeed d =? 0 then calibrate ch else ret tt) ;;
  d <- this ;
  let delay := s16 (u32 (splTime - mSplSpeed d) / 1000) in
  ret (if delay <? 0 then 0 else u16 delay).

(** [void MCP3208::readn(Channel ch, T *data, uint16_t num,
    uint32_t splFreq)] *)
Definition readn_at (ch : Z) (data : list Z) (num splFreq : Z) : M (list Z) :=
  let cmd := createCmd ch in
  delay <- getSplDelay ch splFreq ;
  for_upto (Z.to_nat num) 0
    (fun i data =>
       v <- transfer cmd ;
       delayMicroseconds delay ;;
       ret (<[i := v]> data)) data.

(** [void MCP3208::readn_if(Channel ch, T *data, uint16_t num,
    uint32_t splFreq, const PredicateFn &p)] *)
Definition readn_if_at (fuel : nat) (ch : Z) (data : list Z) (num splFreq : Z)
    (p : Z -> bool) : M (list Z) :=
  let cmd := createCmd ch in
  delay <- getSplDelay ch splFreq ;
  wait_until fuel p cmd ;;
  for_upto (Z.to_nat num) 0
    (fun i data =>
       v <- transfer cmd ;
       delayMicroseconds delay ;;
       ret (<[i := v]> data)) data.

(** [uint32_t MCP3208::testSplSpeed(Channel ch, uint16_t num,
    uint32_t splFreq)] *)
Definition testSplSpeed_at (ch num splFreq : Z) : M Z :=
  delay <- getSplDelay ch splFreq ;
  t1 <- micros ;
  for_upto (Z.to_nat num) 0
    (fun _ _ => read ch ;; delayMicroseconds delay ;; ret tt) tt ;;
  t2 <- micros ;
  div_round (u32 (u32 (t2 - t1) * 1000)) num.

(** [uint16_t MCP3208::toAnalog(uint16_t raw) const] *)
Definition toAnalog (raw : Z) : M Z :=
  d <- this ;
  ret (u16 (u32 (u32 raw * mVref d) / (kRes - 1))).

(** [uint16_t MCP3208::toDigital(uint16_t val) const] *)
Definition toDigital (val : Z) : M Z :=
  d <- this ;
  q <- udiv (u32 (u32 val * (kRes - 1))) (mVref d) ;
  ret (u16 q).

(** [uint16_t MCP3208::getVref() const] *)
Definition getVref : M Z :=
  d <- this ; ret (mVref d).

(** [uint16_t MCP3208::getAnalogRes() const] *)
Definition getAnalogRes : M Z :=
  d <- this ;
  ret (u16 (u32 (u32 (mVref d) * 1000) / (kRes - 1))).

(** ** Vocabulary of the statements *)

(** [q] is an integer nearest to the rational [n / d]. *)
Definition nearest_quotient (n d q : Z) : Prop :=
  2 * Z.abs (n - q * d) <= d.

(** The platform calls of one [transfer], and the platform after it. *)
Definition transfer_events (d : Device) (cmd : Z) (w : World) : list Event :=
  [ DigitalWrite (mCsPin d) LOW;
    SpiExchange (mSpi d) (hiByte cmd) (u8 (miso w (exchanged w)));
    SpiExchange (mSpi d) (loByte cmd) (u8 (miso w (S (exchanged w))));
    SpiExchange (mSpi d) 0 (u8 (miso w (S (S (exchanged w)))));
    DigitalWrite (mCsPin d) HIGH ].

Definition after_transfer (d : Device) (cmd : Z) (w : World) : World :=
  {| miso := miso w; exchanged := S (S (S (exchanged w)));
     timer := timer w; readings := readings w;
     trace := trace w ++ transfer_events d cmd w |}.

(** The 12-bit code carried by the [k]-th three-byte frame that the bus
    still has to deliver. *)
Definition sample_at (w : World) (k : nat) : Z :=
  let i := (3 * k + exchanged w)%nat in
  Z.lor (Z.shiftl (Z.land (u8 (miso w (S i))) 15) 8) (u8 (miso w (S (S i)))).

(** A simulated platform: the bus answers with [bytes], the microsecond
    counter shows [clock], and both show 0 once the lists are used up. *)
Definition simulated (bytes clock : list Z) : World :=
  {| miso := fun k => nth k bytes 0; exchanged := 0;
     timer := fun k => nth k clock 0; readings := 0;
     trace := [] |}.

(** The three response bytes that deliver the code [v]: the first one is
    ignored by the driver. *)
Definition frame (v : Z) : list Z :=
  [0; Z.shiftr v 8; Z.land v 255].

Definition frames (vs : list Z) : list Z := flat_map frame vs.

(** The platform after one reading of [micros()]. *)
Definition after_micros (w : World) : World :=
  {| miso := miso w; exchanged := exchanged w;
     timer := timer w; readings := S (readings w);
     trace := trace w ++ [Micros (u32 (timer w (readings w)))] |}.

(** The platform after [n] transfers, each followed by
    [delayMicroseconds us] when [pause = Some us]. *)
Definition after_pause (pause : option Z) (w : World) : World :=
  match pause with
  | Some us => log (DelayMicroseconds us) w
  | None => w
  end.

Fixpoint after_burst (d : Device) (cmd : Z) (pause : option Z) (n : nat)
    (w : World) : World :=
  match n with
  | O => w
  | S n' => after_burst d cmd pause n' (after_pause pause (after_transfer d cmd w))
  end.

(** What [testSplSpeed] makes of two clock readings and a sample count. *)
Definition measured (t1 t2 num : Z) : Z :=
  u32 (u32 (u32 (t2 - t1) * 1000) + Z.shiftr num 2) / num.

(** What [getSplDelay] makes of a frequency and a baseline. *)
Definition pause_for (splFreq baseline : Z) : Z :=
  let splTime := u32 (1000000000 + Z.shiftr splFreq 2) / splFreq in
  let delay := s16 (u32 (splTime - baseline) / 1000) in
  if delay <? 0 then 0 else u16 delay.

Definition with_mSplSpeed (v : Z) (d : Device) : Device :=
  {| mVref := mVref d; mCsPin := mCsPin d; mSplSpeed := v; mSpi := mSpi d |}.

(** *** The public interface as data

    A call of a method with its arguments, so that statements can range
    over every method and over sequences of calls. *)
Inductive Call : Type :=
| Calibrate (ch : Z)
| Read (ch : Z)
| Readn (ch : Z) (data : list Z) (num : Z)
| ReadnIf (ch : Z) (data : list Z) (num : Z) (p : Z -> bool)
| ReadnAt (ch : Z) (data : list Z) (num splFreq : Z)
| ReadnIfAt (ch : Z) (data : list Z) (num splFreq : Z) (p : Z -> bool)
| TestSplSpeed (ch : Z)
| TestSplSpeedN (ch num : Z)
| TestSplSpeedAt (ch num splFreq : Z)
| ToAnalog (raw : Z)
| ToDigital (val : Z)
| GetVref
| GetAnalogRes.

Inductive Reply : Type :=
| Nothing
| Word (v : Z)
| Buffer (data : list Z).

Definition invoke (fuel : nat) (c : Call) : M Reply :=
  match c with
  | Calibrate ch => calibrate ch ;; ret Nothing
  | Read ch => v <- read ch ; ret (Word v)
  | Readn ch data num => b <- readn ch data num ; ret (Buffer b)
  | ReadnIf ch data num p => b <- readn_if fuel ch data num p ; ret (Buffer b)
  | ReadnAt ch data num f => b <- readn_at ch data num f ; ret (Buffer b)
  | ReadnIfAt ch data num f p =>
      b <- readn_if_at fuel ch data num f p ; ret (Buffer b)
  | TestSplSpeed ch => v <- testSplSpeed ch ; ret (Word v)
  | TestSplSpeedN ch num => v <- testSplSpeed_n ch num ; ret (Word v)
  | TestSplSpeedAt ch num f => v <- testSplSpeed_at ch num f ; ret (Word v)
  | ToAnalog raw => v <- toAnalog raw ; ret (Word v)
  | ToDigital val => v <- toDigital val ; ret (Word v)
  | GetVref => v <- getVref ; ret (Word v)
  | GetAnalogRes => v <- getAnalogRes ; ret (Word v)
  end.

Fixpoint run (fuel : nat) (cs : list Call) : M (list Reply) :=
  match cs with
  | [] => ret []
  | c :: cs' => r <- invoke fuel c ; rs <- run fuel cs' ; ret (r :: rs)
  end.

(** The methods the source declares [const]. *)
Definition declared_const (c : Call) : bool :=
  match c with
  | Read _ | Readn _ _ _ | ReadnIf _ _ _ _
  | TestSplSpeed _ | TestSplSpeedN _ _
  | ToAnalog _ | ToDigital _ | GetVref | GetAnalogRes => true
  | Calibrate _ | ReadnAt _ _ _ _ | ReadnIfAt _ _ _ _ _
  | TestSplSpeedAt _ _ _ => false
  end.

Definition explicit_calibration (c : Call) : bool :=
  match c with
  | Calibrate _ => true
  | _ => false
  end.

(** Relations between the object before and after a call. *)
Definition same_config (d d' : Device) : Prop :=
  mVref d' = mVref d /\ mCsPin d' = mCsPin d /\ mSpi d' = mSpi d.

Definition sticky (d d' : Device) : Prop :=
  mSplSpeed d <> 0 -> d' = d.

(** A computation relates the object it starts from to the one it leaves
    behind by [R], whenever it returns. *)
Definition preserves {A} (R : Device -> Device -> Prop) (m : M A) : Prop :=
  forall d w a d' w', m (d, w) = Done (a, (d', w')) -> R d d'.

(** *** Traces of bursts and the select line *)

(** The platform calls of the [k]-th transfer of a burst that starts on
    the platform [w]. *)
Definition sample_events (d : Device) (cmd : Z) (w : World) (k : nat)
    : list Event :=
  let i := (3 * k + exchanged w)%nat in
  [ DigitalWrite (mCsPin d) LOW;
    SpiExchange (mSpi d) (hiByte cmd) (u8 (miso w i));
    SpiExchange (mSpi d) (loByte cmd) (u8 (miso w (S i)));
    SpiExchange (mSpi d) 0 (u8 (miso w (S (S i))));
    DigitalWrite (mCsPin d) HIGH ].

Definition pause_events (pause : option Z) : list Event :=
  match pause with
  | Some us => [DelayMicroseconds us]
  | None => []
  end.

Definition burst_events (d : Device) (cmd : Z) (pause : option Z) (w : World)
    (n : nat) : list Event :=
  flat_map (fun k => sample_events d cmd w k ++ pause_events pause) (seq 0 n).

(** The select line of pin [cs] read off a trace, [low] telling whether
    the line is low: it only toggles, bytes are exchanged only while it is
    low, the clock is read and delays are taken only while it is high.
    [None] marks a trace that breaks this discipline. *)
Definition line_step (cs : Z) (low : bool) (e : Event) : option bool :=
  match e with
  | DigitalWrite pin LOW =>
      if (pin =? cs) && negb low then Some true else None
  | DigitalWrite pin HIGH =>
      if (pin =? cs) && low then Some false else None
  | SpiExchange _ _ _ => if low then Some true else None
  | Micros _ | DelayMicroseconds _ => if low then None else Some false
  end.

Fixpoint line_run (cs : Z) (low : bool) (es : list Event) : option bool :=
  match es with
  | [] => Some low
  | e :: es' =>
      match line_step cs low e with
      | Some low' => line_run cs low' es'
      | None => None
      end
  end.

(** The device is deselected and has been driven by the discipline. *)
Definition idle (cs : Z) (s : State) : Prop :=
  mCsPin (fst s) = cs /\ line_run cs false (trace (snd s)) = Some false.

(** A computation keeps a property of the state, whenever it returns. *)
Definition keeps {A} (I : State -> Prop) (m : M A) : Prop :=
  forall s a s', I s -> m s = Done (a, s') -> I s'.

(** What is checked of the command word of one selector value. *)
Definition selector_ok (ch : Z) : bool :=
  (Z.land (Z.shiftr (createCmd ch) 6) 15 =? ch)
  && Z.testbit (createCmd ch) 10
  && (Z.land (createCmd ch) 63 =? 0)
  && (createCmd ch <? 2048)
  && (createCmd (ch + 16) =? createCmd ch).

(** The bus has carried a whole number of three-byte frames since it
    stood at [e0] exchanges. *)
Definition whole_frames (e0 : nat) (s : State) : Prop :=
  exists k : nat, exchanged (snd s) = (e0 + 3 * k)%nat.

(** ** Fixed-width arithmetic *)

Lemma u8_small x : 0 <= x < 2 ^ 8 -> u8 x = x.
Proof. intros H. unfold u8. now apply Z.mod_small. Qed.

Lemma u16_small x : 0 <= x < 2 ^ 16 -> u16 x = x.
Proof. intros H. unfold u16. now apply Z.mod_small. Qed.

Lemma u32_small x : 0 <= x < 2 ^ 32 -> u32 x = x.
Proof. intros H. unfold u32. now apply Z.mod_small. Qed.

Lemma u8_range x : 0 <= u8 x < 2 ^ 8.
Proof. unfold u8. apply Z.mod_pos_bound. lia. Qed.

Lemma u32_range x : 0 <= u32 x < 2 ^ 32.
Proof. unfold u32. apply Z.mod_pos_bound. lia. Qed.

Lemma land_15_range x : 0 <= Z.land x 15 < 16.
Proof.
  change 15 with (Z.ones 4). rewrite Z.land_ones by lia.
  apply Z.mod_pos_bound. lia.
Qed.

Lemma lor_below n a b :
  0 <= n -> 0 <= a < 2 ^ n -> 0 <= b < 2 ^ n -> 0 <= Z.lor a b < 2 ^ n.
Proof.
  intros Hn Ha Hb.
  assert (H0 : 0 <= Z.lor a b) by (apply Z.lor_nonneg; lia).
  split; [exact H0|].
  destruct (Z.eq_dec (Z.lor a b) 0) as [E|E].
  - rewrite E. apply Z.pow_pos_nonneg; lia.
  - apply Z.log2_lt_pow2; [lia|].
    rewrite Z.log2_lor by lia.
    destruct (Z.eq_dec a 0) as [->|Na]; destruct (Z.eq_dec b 0) as [->|Nb].
    + now rewrite Z.lor_0_l in E.
    + rewrite Z.max_r by (apply Z.log2_nonneg).
      apply Z.log2_lt_pow2; lia.
    + rewrite Z.max_l by (apply Z.log2_nonneg).
      apply Z.log2_lt_pow2; lia.
    + apply Z.max_lub_lt; apply Z.log2_lt_pow2; lia.
Qed.

Lemma code_range hi lo :
  0 <= hi < 16 -> 0 <= lo < 2 ^ 8 -> 0 <= Z.lor (Z.shiftl hi 8) lo <= 4095.
Proof.
  intros Hhi Hlo.
  assert (H : 0 <= Z.lor (Z.shiftl hi 8) lo < 2 ^ 12).
  { apply lor_below; [lia| |lia].
    rewrite Z.shiftl_mul_pow2 by lia. lia. }
  lia.
Qed.

Lemma SpiData_code r lo :
  SpiData (Z.land r 15) (u8 lo) = Z.lor (Z.shiftl (Z.land r 15) 8) (u8 lo).
Proof.
  unfold SpiData. pose proof (land_15_range r) as Hr.
  rewrite (u8_small (Z.land r 15)) by lia.
  rewrite (u8_small (u8 lo)) by apply u8_range.
  reflexivity.
Qed.

(** ** The transfer engine *)

Lemma transfer_eq cmd d w :
  transfer cmd (d, w) = Done (sample_at w 0, (d, after_transfer d cmd w)).
Proof.
  unfold transfer, bind, this, digitalWrite, spi_transfer, ret, log,
    after_transfer, transfer_events, sample_at; simpl.
  rewrite SpiData_code. rewrite <- !app_assoc. reflexivity.
Qed.

(** C6. One call to [transfer] makes exactly three byte exchanges on the
    bus, bracketed by the select line going low and high: it sends the high
    command byte, the low command byte and a 0x00 byte.  It returns
    [((r2 & 0x0F) << 8) | r3], where [r2] and [r3] are the second and third
    response bytes, a value in [0, 4095]; on a bus answering 0xFA and 0x3C
    after any first byte this is 0x0A3C = 2620. *)
Theorem transfer_three_exchanges :
  forall (cmd : Z) (d : Device) (w : World),
    let r1 := u8 (miso w (exchanged w)) in
    let r2 := u8 (miso w (S (exchanged w))) in
    let r3 := u8 (miso w (S (S (exchanged w)))) in
    let code := Z.lor (Z.shiftl (Z.land r2 15) 8) r3 in
    transfer cmd (d, w) =
      Done (code,
            (d, {| miso := miso w; exchanged := (exchanged w + 3)%nat;
                   timer := timer w; readings := readings w;
                   trace := trace w ++
                     [ DigitalWrite (mCsPin d) LOW;
                       SpiExchange (mSpi d) (Z.land (Z.shiftr cmd 8) 255) r1;
                       SpiExchange (mSpi d) (Z.land cmd 255) r2;
                       SpiExchange (mSpi d) 0 r3;
                       DigitalWrite (mCsPin d) HIGH ] |}))
    /\ 0 <= code <= 4095
    /\ (forall first : Z,
          transfer cmd (d, simulated [first; 250; 60] []) =
            Done (2620, (d, after_transfer d cmd
                              (simulated [first; 250; 60] [])))).
Proof.
  intros cmd d w r1 r2 r3 code. split; [|split].
  - rewrite transfer_eq. unfold after_transfer, transfer_events, sample_at.
    replace (exchanged w + 3)%nat with (S (S (S (exchanged w)))) by lia.
    reflexivity.
  - apply code_range; [apply land_15_range | apply u8_range].
  - intros first. rewrite transfer_eq. reflexivity.
Qed.

(** ** The command encoder *)

(** C5. For every channel in 0..7, [createCmd] yields the 16-bit word
    [0x0400 | (channel << 6)]. *)
Theorem createCmd_channel :
  forall ch : Z,
    0 <= ch <= 7 ->
    createCmd ch = Z.lor 1024 (Z.shiftl ch 6) /\ 0 <= createCmd ch < 2 ^ 16.
Proof.
  intros ch Hch.
  assert (Hlor : 0 <= Z.lor 1024 (Z.shiftl ch 6) < 2 ^ 16).
  { apply lor_below; [lia|lia|].
    rewrite Z.shiftl_mul_pow2 by lia. lia. }
  unfold createCmd. rewrite u16_small by exact Hlor. split; [reflexivity|exact Hlor].
Qed.

Lemma createCmd_channel_witness :
  0 <= 5 <= 7 /\
  createCmd 5 = Z.lor 1024 (Z.shiftl 5 6) /\ 0 <= createCmd 5 < 2 ^ 16.
Proof. split; [lia | apply (createCmd_channel 5); lia]. Defined.

(** ** Conversion between codes and voltages *)

Lemma scaled_fits raw vref :
  0 <= raw <= 4095 -> 0 <= vref < 2 ^ 16 ->
  0 <= raw * vref < 2 ^ 32 /\ 0 <= raw * vref / 4095 <= vref.
Proof.
  intros Hraw Hv. split; [nia|]. split.
  - apply Z.div_pos; nia.
  - apply Z.div_le_upper_bound; nia.
Qed.

Lemma toAnalog_eq raw d w :
  0 <= raw <= 4095 -> 0 <= mVref d < 2 ^ 16 ->
  toAnalog raw (d, w) = Done (raw * mVref d / 4095, (d, w)).
Proof.
  intros Hraw Hv. destruct (scaled_fits raw (mVref d) Hraw Hv) as [Hm Hq].
  unfold toAnalog, bind, this, ret; simpl.
  change (kRes - 1) with 4095.
  rewrite (u32_small raw) by lia.
  rewrite u32_small by exact Hm.
  rewrite u16_small by lia. reflexivity.
Qed.

Lemma toDigital_eq val d w :
  0 <= val <= mVref d -> 0 < mVref d < 2 ^ 16 ->
  toDigital val (d, w) = Done (val * 4095 / mVref d, (d, w)).
Proof.
  intros Hval Hv.
  unfold toDigital, bind, this, udiv, ret; simpl.
  change (kRes - 1) with 4095.
  destruct (Z.eqb_spec (mVref d) 0) as [E|_]; [lia|].
  rewrite (u32_small val) by lia.
  rewrite u32_small by nia.
  rewrite u16_small; [reflexivity|]. split.
  - apply Z.div_pos; nia.
  - apply Z.div_lt_upper_bound; nia.
Qed.

(** C3, as the code has it.  For every raw code in [0, 4095] and every
    reference voltage, [toAnalog raw] is [raw * vref / 4095] rounded down
    (integer division), not rounded to nearest; [toAnalog 0 = 0] and
    [toAnalog 4095 = vref] exactly; nothing else changes. *)
Theorem toAnalog_floor :
  forall (raw : Z) (d : Device) (w : World),
    0 <= raw <= 4095 ->
    0 <= mVref d < 2 ^ 16 ->
    (exists v,
        toAnalog raw (d, w) = Done (v, (d, w))
        /\ v * 4095 <= raw * mVref d < (v + 1) * 4095)
    /\ toAnalog 0 (d, w) = Done (0, (d, w))
    /\ toAnalog 4095 (d, w) = Done (mVref d, (d, w)).
Proof.
  intros raw d w Hraw Hv. split; [|split].
  - exists (raw * mVref d / 4095). split; [now apply toAnalog_eq|].
    pose proof (Z.mul_div_le (raw * mVref d) 4095 ltac:(lia)).
    pose proof (Z.mul_succ_div_gt (raw * mVref d) 4095 ltac:(lia)).
    lia.
  - rewrite toAnalog_eq by lia. reflexivity.
  - rewrite toAnalog_eq by lia.
    rewrite Z.mul_comm, Z.div_mul by lia. reflexivity.
Qed.

Lemma toAnalog_floor_witness :
  (exists v,
      toAnalog 1 (MCP3208 3300 10 0, simulated [] []) =
        Done (v, (MCP3208 3300 10 0, simulated [] []))
      /\ v * 4095 <= 1 * mVref (MCP3208 3300 10 0) < (v + 1) * 4095)
  /\ toAnalog 0 (MCP3208 3300 10 0, simulated [] []) =
       Done (0, (MCP3208 3300 10 0, simulated [] []))
  /\ toAnalog 4095 (MCP3208 3300 10 0, simulated [] []) =
       Done (mVref (MCP3208 3300 10 0), (MCP3208 3300 10 0, simulated [] [])).
Proof.
  apply (toAnalog_floor 1 (MCP3208 3300 10 0) (simulated [] []));
    [lia | vm_compute; split; congruence].
Defined.

(** C3, as the spec words it, fails: with [vref = 3300] the code 1 is
    converted to 0, while [1 * 3300 / 4095 = 0.806] rounds to 1. *)
Lemma toAnalog_not_nearest :
  toAnalog 1 (MCP3208 3300 10 0, simulated [] []) =
    Done (0, (MCP3208 3300 10 0, simulated [] []))
  /\ ~ nearest_quotient (1 * 3300) (kRes - 1) 0
  /\ nearest_quotient (1 * 3300) (kRes - 1) 1.
Proof.
  split; [reflexivity|]. unfold nearest_quotient, kRes. split; simpl; lia.
Qed.

(** C4. For every raw code in [0, 4095] and every reference voltage of at
    least 4095, converting to a voltage and back gives the code again or
    the code below it, so the round trip is within 1 of [raw]. *)
Theorem toDigital_toAnalog_within_one :
  forall (raw : Z) (d : Device) (w : World),
    0 <= raw <= 4095 ->
    4095 <= mVref d < 2 ^ 16 ->
    exists back,
      (v <- toAnalog raw ; toDigital v) (d, w) = Done (back, (d, w))
      /\ raw - 1 <= back <= raw
      /\ Z.abs (back - raw) <= 1.
Proof.
  intros raw d w Hraw Hv.
  destruct (scaled_fits raw (mVref d) Hraw ltac:(lia)) as [Hm Hq].
  set (v := raw * mVref d / 4095) in *.
  exists (v * 4095 / mVref d).
  assert (Hlo : v * 4095 <= raw * mVref d).
  { pose proof (Z.mul_div_le (raw * mVref d) 4095 ltac:(lia)). lia. }
  assert (Hhi : raw * mVref d < (v + 1) * 4095).
  { pose proof (Z.mul_succ_div_gt (raw * mVref d) 4095 ltac:(lia)). lia. }
  assert (Hback : raw - 1 <= v * 4095 / mVref d <= raw).
  { split.
    - apply Z.div_le_lower_bound; nia.
    - apply Z.div_le_upper_bound; nia. }
  split; [|split; [exact Hback | lia]].
  unfold bind at 1. rewrite toAnalog_eq by lia. fold v.
  apply toDigital_eq; lia.
Qed.

Lemma toDigital_toAnalog_within_one_witness :
  exists back,
    (v <- toAnalog 1000 ; toDigital v)
      (MCP3208 5000 10 0, simulated [] []) =
      Done (back, (MCP3208 5000 10 0, simulated [] []))
    /\ 1000 - 1 <= back <= 1000
    /\ Z.abs (back - 1000) <= 1.
Proof.
  apply (toDigital_toAnalog_within_one 1000 (MCP3208 5000 10 0)
           (simulated [] []));
    [lia | vm_compute; split; congruence].
Defined.

(** ** Bursts of transfers *)

Lemma sample_at_next pause d cmd w k :
  sample_at (after_pause pause (after_transfer d cmd w)) k = sample_at w (S k).
Proof.
  set (w1 := after_pause pause (after_transfer d cmd w)).
  assert (He : exchanged w1 = S (S (S (exchanged w))))
    by (destruct pause; reflexivity).
  assert (Hm : miso w1 = miso w) by (destruct pause; reflexivity).
  unfold sample_at. rewrite He, Hm.
  replace (3 * k + S (S (S (exchanged w))))%nat
    with (3 * S k + exchanged w)%nat by lia.
  reflexivity.
Qed.

Lemma sample_at_after_transfer d cmd w k :
  sample_at (after_transfer d cmd w) k = sample_at w (S k).
Proof. exact (sample_at_next None d cmd w k). Qed.

Lemma sample_at_burst d cmd pause a w k :
  sample_at (after_burst d cmd pause a w) k = sample_at w (a + k).
Proof.
  revert w. induction a as [|a IH]; intros w; simpl; [reflexivity|].
  rewrite IH. apply sample_at_next.
Qed.

Lemma after_burst_add d cmd pause a b w :
  after_burst d cmd pause (a + b) w =
    after_burst d cmd pause b (after_burst d cmd pause a w).
Proof.
  revert w. induction a as [|a IH]; intros w; simpl; [reflexivity|apply IH].
Qed.

Lemma after_burst_counters d cmd pause n w :
  exchanged (after_burst d cmd pause n w) = (exchanged w + 3 * n)%nat
  /\ readings (after_burst d cmd pause n w) = readings w
  /\ timer (after_burst d cmd pause n w) = timer w
  /\ miso (after_burst d cmd pause n w) = miso w.
Proof.
  revert w. induction n as [|n IH]; intros w; simpl.
  - repeat split; lia.
  - destruct (IH (after_pause pause (after_transfer d cmd w)))
      as (He & Hr & Ht & Hm).
    rewrite He, Hr, Ht, Hm. destruct pause; simpl; repeat split; lia.
Qed.

Lemma map_seq_from {A} (f : nat -> A) a n :
  map (fun j => f (a + j)%nat) (seq 0 n) = map f (seq a n).
Proof.
  revert a. induction n as [|n IH]; intros a; simpl; [reflexivity|].
  rewrite Nat.add_0_r. f_equal.
  rewrite <- (IH (S a)), <- seq_shift, map_map.
  apply map_ext. intros j. f_equal. lia.
Qed.

(** A [for] loop whose body stores one sample at [data[i]] fills the
    buffer from index [i] on with the next [n] samples of the bus. *)
Lemma for_upto_collect cmd pause (body : nat -> list Z -> M (list Z)) :
  (forall i data d w,
      body i data (d, w) =
        Done (<[i := sample_at w 0]> data,
              (d, after_pause pause (after_transfer d cmd w)))) ->
  forall n i data d w,
    (i + n <= length data)%nat ->
    for_upto n i body data (d, w) =
      Done (take i data ++ map (sample_at w) (seq 0 n) ++ drop (i + n) data,
            (d, after_burst d cmd pause n w)).
Proof.
  intros Hbody. induction n as [|n IH]; intros i data d w Hlen; simpl.
  - unfold ret. rewrite Nat.add_0_r, take_drop. reflexivity.
  - unfold bind. rewrite Hbody.
    rewrite IH by (rewrite length_insert; lia).
    f_equal. f_equal.
    rewrite (take_S_r _ i (sample_at w 0))
      by (apply list_lookup_insert_eq; lia).
    rewrite take_insert_ge by lia.
    rewrite drop_insert_lt by lia.
    rewrite <- app_assoc. simpl. f_equal. f_equal.
    replace (S (i + n)) with (i + S n)%nat by lia. f_equal.
    rewrite <- seq_shift, map_map.
    apply map_ext. intros k. apply sample_at_next.
Qed.

Lemma store_body cmd (i : nat) (data : list Z) d w :
  (v <- transfer cmd ; ret (<[i := v]> data)) (d, w) =
    Done (<[i := sample_at w 0]> data,
          (d, after_pause None (after_transfer d cmd w))).
Proof. unfold bind. rewrite transfer_eq. reflexivity. Qed.

Lemma store_pause_body cmd us (i : nat) (data : list Z) d w :
  (v <- transfer cmd ; delayMicroseconds us ;; ret (<[i := v]> data)) (d, w) =
    Done (<[i := sample_at w 0]> data,
          (d, after_pause (Some us) (after_transfer d cmd w))).
Proof. unfold bind. rewrite transfer_eq. reflexivity. Qed.

(** A [for] loop that only reads. *)
Lemma for_upto_discard cmd pause (body : nat -> unit -> M unit) :
  (forall i d w,
      body i tt (d, w) =
        Done (tt, (d, after_pause pause (after_transfer d cmd w)))) ->
  forall n i d w,
    for_upto n i body tt (d, w) = Done (tt, (d, after_burst d cmd pause n w)).
Proof.
  intros Hbody. induction n as [|n IH]; intros i d w; simpl; [reflexivity|].
  unfold bind. rewrite Hbody. apply IH.
Qed.

(** The gating loop: it returns right after the first sample that
    satisfies the predicate, and spins for as long as none does. *)
Lemma wait_until_hit p cmd d k :
  forall fuel w,
    (forall j, (j < k)%nat -> p (sample_at w j) = false) ->
    p (sample_at w k) = true ->
    (k < fuel)%nat ->
    wait_until fuel p cmd (d, w) =
      Done (tt, (d, after_burst d cmd None (S k) w)).
Proof.
  induction k as [|k IH]; intros fuel w Hmiss Hhit Hfuel;
    (destruct fuel as [|fuel]; [lia|]); simpl; unfold bind;
    rewrite transfer_eq.
  - rewrite Hhit. reflexivity.
  - rewrite (Hmiss 0%nat) by lia.
    rewrite (IH fuel (after_transfer d cmd w)); [reflexivity| | |lia].
    + intros j Hj. rewrite sample_at_after_transfer. apply Hmiss. lia.
    + rewrite sample_at_after_transfer. exact Hhit.
Qed.

Lemma wait_until_miss p cmd d fuel :
  forall w,
    (forall j, (j < fuel)%nat -> p (sample_at w j) = false) ->
    wait_until fuel p cmd (d, w) = Spinning.
Proof.
  induction fuel as [|fuel IH]; intros w Hmiss; simpl; [reflexivity|].
  unfold bind. rewrite transfer_eq. rewrite (Hmiss 0%nat) by lia.
  apply IH. intros j Hj. rewrite sample_at_after_transfer. apply Hmiss. lia.
Qed.

(** C7. The predicate-gated read transfers and discards samples up to and
    including the first one that satisfies the predicate (sample [k]), then
    stores the next [num] samples, in bus order, at the start of the
    buffer; it makes [3 * (k + 1 + num)] byte exchanges and leaves the
    object alone.  As long as no sample satisfies the predicate it keeps
    spinning. *)
Theorem readn_if_gated :
  forall (ch : Z) (data : list Z) (num : Z) (p : Z -> bool)
         (d : Device) (w : World) (k fuel : nat),
    (Z.to_nat num <= length data)%nat ->
    (forall j, (j < k)%nat -> p (sample_at w j) = false) ->
    p (sample_at w k) = true ->
    (k < fuel)%nat ->
    let w' := after_burst d (createCmd ch) None (S k + Z.to_nat num) w in
    readn_if fuel ch data num p (d, w) =
      Done (map (sample_at w) (seq (S k) (Z.to_nat num))
              ++ drop (Z.to_nat num) data,
            (d, w'))
    /\ exchanged w' = (exchanged w + 3 * (S k + Z.to_nat num))%nat
    /\ (forall fuel', (fuel' <= k)%nat ->
          readn_if fuel' ch data num p (d, w) = Spinning).
Proof.
  intros ch data num p d w k fuel Hlen Hmiss Hhit Hfuel w'.
  split; [|split].
  - unfold readn_if, bind.
    rewrite (wait_until_hit p _ d k fuel w Hmiss Hhit Hfuel).
    rewrite (for_upto_collect (createCmd ch) None) by (apply store_body || lia).
    unfold w'. rewrite after_burst_add. simpl take. simpl app.
    f_equal. f_equal. f_equal.
    rewrite <- (map_seq_from (sample_at w) (S k)).
    apply map_ext. intros j.
    rewrite sample_at_burst, sample_at_after_transfer. reflexivity.
  - unfold w'. apply after_burst_counters.
  - intros fuel' Hfuel'. unfold readn_if, bind.
    rewrite wait_until_miss; [reflexivity|].
    intros j Hj. apply Hmiss. lia.
Qed.

Lemma readn_if_gated_witness :
  exists w',
    readn_if 4 0 [0; 0] 2 (fun v => v =? 42)
      (MCP3208 3300 10 0, simulated (frames [5; 5; 5; 42; 7; 7]) []) =
      Done ([7; 7], (MCP3208 3300 10 0, w'))
    /\ exchanged w' = 18%nat.
Proof.
  eexists.
  assert (Hlen : (Z.to_nat 2 <= length [0; 0])%nat) by (simpl; lia).
  assert (Hmiss : forall j, (j < 3)%nat ->
            (fun v => v =? 42)
              (sample_at (simulated (frames [5; 5; 5; 42; 7; 7]) []) j) = false).
  { intros [|[|[|j]]] Hj; [reflexivity | reflexivity | reflexivity | lia]. }
  assert (Hfuel : (3 < 4)%nat) by lia.
  destruct (readn_if_gated 0 [0; 0] 2 (fun v => v =? 42)
              (MCP3208 3300 10 0) (simulated (frames [5; 5; 5; 42; 7; 7]) [])
              3 4 Hlen Hmiss eq_refl Hfuel) as (Hres & Hcount & _).
  split; [exact Hres | exact Hcount].
Defined.

(** ** Timing *)

Lemma bind_done {A B} (m : M A) (k : A -> M B) s a s' :
  m s = Done (a, s') -> bind m k s = k a s'.
Proof. intros H. unfold bind. rewrite H. reflexivity. Qed.

Lemma micros_eq d w :
  micros (d, w) = Done (u32 (timer w (readings w)), (d, after_micros w)).
Proof. reflexivity. Qed.

Lemma read_body ch (i : nat) d w :
  (read ch ;; ret tt) (d, w) =
    Done (tt, (d, after_pause None (after_transfer d (createCmd ch) w))).
Proof. unfold bind, read. rewrite transfer_eq. reflexivity. Qed.

Lemma testSplSpeed_n_eq ch num d w :
  num <> 0 ->
  testSplSpeed_n ch num (d, w) =
    Done (measured (u32 (timer w (readings w)))
                   (u32 (timer w (S (readings w)))) num,
          (d, after_micros
                (after_burst d (createCmd ch) None (Z.to_nat num)
                   (after_micros w)))).
Proof.
  intros Hnum. unfold testSplSpeed_n.
  rewrite (bind_done _ _ _ _ _ (micros_eq d w)).
  rewrite (bind_done _ _ _ _ _
             (for_upto_discard (createCmd ch) None _
                (fun i => read_body ch i) (Z.to_nat num) 0%nat d
                (after_micros w))).
  rewrite (bind_done _ _ _ _ _ (micros_eq d _)).
  destruct (after_burst_counters d (createCmd ch) None (Z.to_nat num)
              (after_micros w)) as (_ & Hr & Ht & _).
  rewrite Hr, Ht. unfold div_round, udiv, measured.
  destruct (Z.eqb_spec num 0) as [E|_]; [contradiction|]. reflexivity.
Qed.

Lemma testSplSpeed_n_zero ch d w :
  testSplSpeed_n ch 0 (d, w) = Undefined.
Proof. reflexivity. Qed.

Lemma calibrate_eq ch d w :
  calibrate ch (d, w) =
    Done (tt,
          (with_mSplSpeed
             (measured (u32 (timer w (readings w)))
                       (u32 (timer w (S (readings w)))) 256) d,
           after_micros
             (after_burst d (createCmd ch) None 256 (after_micros w)))).
Proof.
  unfold calibrate.
  rewrite (bind_done _ _ _ _ _ (testSplSpeed_n_eq ch 256 d w ltac:(lia))).
  reflexivity.
Qed.

Lemma getSplDelay_zero ch d w :
  getSplDelay ch 0 (d, w) = Undefined.
Proof. reflexivity. Qed.

Lemma getSplDelay_calibrated ch f d w :
  f <> 0 -> mSplSpeed d <> 0 ->
  getSplDelay ch f (d, w) = Done (pause_for f (mSplSpeed d), (d, w)).
Proof.
  intros Hf Hb. unfold getSplDelay, div_round, udiv.
  unfold bind at 1. destruct (Z.eqb_spec f 0) as [E|_]; [contradiction|].
  unfold bind at 1, this at 1. simpl fst.
  destruct (Z.eqb_spec (mSplSpeed d) 0) as [E|_]; [contradiction|].
  reflexivity.
Qed.

Lemma getSplDelay_uncalibrated ch f d w :
  f <> 0 -> mSplSpeed d = 0 ->
  getSplDelay ch f (d, w) =
    (calibrate ch ;; d' <- this ; ret (pause_for f (mSplSpeed d'))) (d, w).
Proof.
  intros Hf Hb. unfold getSplDelay, div_round, udiv.
  unfold bind at 1. destruct (Z.eqb_spec f 0) as [E|_]; [contradiction|].
  unfold bind at 1, this at 1. simpl fst. rewrite Hb. reflexivity.
Qed.

(** Where the clamp of [getSplDelay] does work: a period that is below
    the baseline by at most 2359296 ns gives no delay. *)
Lemma pause_for_small_deficit f baseline :
  f <> 0 ->
  0 <= baseline - u32 (1000000000 + Z.shiftr f 2) / f <= 2359296 ->
  pause_for f baseline = 0.
Proof.
  intros Hf Hd. unfold pause_for. cbv zeta.
  set (splTime := u32 (1000000000 + Z.shiftr f 2) / f) in *.
  clearbody splTime.
  assert (Hs : s16 (u32 (splTime - baseline) / 1000) <= 0).
  { destruct (Z.eq_dec (splTime - baseline) 0) as [E|E].
    - rewrite E. vm_compute. congruence.
    - assert (Hu : u32 (splTime - baseline) = 2 ^ 32 + (splTime - baseline)).
      { unfold u32. symmetry. apply Z.mod_unique with (q := -1); lia. }
      rewrite Hu. unfold s16, u16.
      assert (Hq : 4292608 <= (2 ^ 32 + (splTime - baseline)) / 1000 <= 4294967).
      { split.
        - apply Z.div_le_lower_bound; lia.
        - apply Z.lt_succ_r. apply Z.div_lt_upper_bound; lia. }
      set (q := (2 ^ 32 + (splTime - baseline)) / 1000) in *.
      assert (Hm : q mod 2 ^ 16 = q - 65 * 2 ^ 16).
      { symmetry. apply Z.mod_unique with (q := 65); lia. }
      rewrite Hm. destruct (Z.ltb_spec (q - 65 * 2 ^ 16) (2 ^ 15)); lia. }
  destruct (Z.ltb_spec (s16 (u32 (splTime - baseline) / 1000)) 0) as [_|Hge];
    [reflexivity|].
  assert (E : s16 (u32 (splTime - baseline) / 1000) = 0) by lia.
  rewrite E. reflexivity.
Qed.

(** C2: the code against the claim.  With the default 64 samples and clock
    readings 0 and 1 the elapsed time is 1000 ns; [testSplSpeed] returns
    15, while 1000 / 64 = 15.625 is nearest to 16: [div_round] adds a
    quarter of the divisor, not half of it, before dividing. *)
Theorem testSplSpeed_not_nearest :
  exists w',
    testSplSpeed 0 (MCP3208 3300 10 0, simulated [] [0; 1]) =
      Done (15, (MCP3208 3300 10 0, w'))
    /\ ~ nearest_quotient ((1 - 0) * 1000) 64 15
    /\ nearest_quotient ((1 - 0) * 1000) 64 16.
Proof.
  eexists. split; [|split].
  - unfold testSplSpeed. rewrite testSplSpeed_n_eq by lia. reflexivity.
  - unfold nearest_quotient. simpl. lia.
  - unfold nearest_quotient. simpl. lia.
Qed.

(** C1: the code against the claim.  A device calibrated on a slow bus
    (256 samples in 768000 us, a baseline of 3000000 ns) is asked for
    1 MHz: the desired period, 1000 ns, is below the baseline, yet
    [getSplDelay] returns 32128 and not 0.  The difference is taken on
    unsigned 32-bit values, wraps to 4291968296, and the low 16 bits of
    4291968 happen to be a positive [int16_t]. *)
Theorem getSplDelay_below_baseline_not_zero :
  exists d w,
    calibrate 0 (MCP3208 3300 10 0, simulated [] [0; 768000]) = Done (tt, (d, w))
    /\ mSplSpeed d = 3000000
    /\ div_round 1000000000 1000000 (d, w) = Done (1000, (d, w))
    /\ getSplDelay 0 1000000 (d, w) = Done (32128, (d, w))
    /\ getSplDelay 0 1000000 (MCP3208 3300 10 0, simulated [] [0; 768000]) =
         Done (32128, (d, w)).
Proof.
  eexists. eexists. split; [apply calibrate_eq|].
  split; [reflexivity|]. split; [reflexivity|]. split.
  - rewrite getSplDelay_calibrated by (vm_compute; congruence). reflexivity.
  - rewrite getSplDelay_uncalibrated by (vm_compute; congruence).
    rewrite (bind_done _ _ _ _ _ (calibrate_eq _ _ _)). reflexivity.
Qed.

(** ** What a call may do to the object *)

Section Frame.

Context (R : Device -> Device -> Prop).
Context (R_refl : forall d, R d d).
Context (R_trans : forall a b c, R a b -> R b c -> R a c).

Lemma preserves_ret {A} (a : A) : preserves R (ret a).
Proof. intros d w a' d' w' H. injection H as _ <- _. apply R_refl. Qed.

Lemma preserves_bind {A B} (m : M A) (k : A -> M B) :
  preserves R m -> (forall a, preserves R (k a)) -> preserves R (bind m k).
Proof.
  intros Hm Hk d w b d' w' H. unfold bind in H.
  destruct (m (d, w)) as [[a [d1 w1]]| |] eqn:E; try discriminate.
  apply (R_trans d d1 d'); [apply (Hm d w a d1 w1 E) | apply (Hk a d1 w1 b d' w' H)].
Qed.

Lemma preserves_this : preserves R this.
Proof. intros d w a d' w' H. injection H as _ <- _. apply R_refl. Qed.

Lemma preserves_digitalWrite pin lvl : preserves R (digitalWrite pin lvl).
Proof. intros d w a d' w' H. injection H as _ <- _. apply R_refl. Qed.

Lemma preserves_spi_transfer bus out : preserves R (spi_transfer bus out).
Proof. intros d w a d' w' H. injection H as _ <- _. apply R_refl. Qed.

Lemma preserves_micros : preserves R micros.
Proof. intros d w a d' w' H. injection H as _ <- _. apply R_refl. Qed.

Lemma preserves_delayMicroseconds us : preserves R (delayMicroseconds us).
Proof. intros d w a d' w' H. injection H as _ <- _. apply R_refl. Qed.

Lemma preserves_udiv n q : preserves R (udiv n q).
Proof.
  intros d w a d' w' H. unfold udiv in H.
  destruct (q =? 0); [discriminate|]. injection H as _ <- _. apply R_refl.
Qed.

Lemma preserves_for_upto {A} (body : nat -> A -> M A) :
  (forall i acc, preserves R (body i acc)) ->
  forall n i acc, preserves R (for_upto n i body acc).
Proof.
  intros Hbody. induction n as [|n IH]; intros i acc; simpl.
  - apply preserves_ret.
  - apply preserves_bind; [apply Hbody | intros acc'; apply IH].
Qed.

Ltac frame_prim :=
  first
    [ apply preserves_ret | apply preserves_this
    | apply preserves_digitalWrite | apply preserves_spi_transfer
    | apply preserves_micros | apply preserves_delayMicroseconds
    | apply preserves_udiv ].

Lemma preserves_transfer cmd : preserves R (transfer cmd).
Proof.
  unfold transfer. repeat first [frame_prim | apply preserves_bind; [|intros ?]].
Qed.

Lemma preserves_wait_until p cmd fuel : preserves R (wait_until fuel p cmd).
Proof.
  induction fuel as [|fuel IH]; simpl.
  - intros d w a d' w' H. discriminate.
  - apply preserves_bind; [apply preserves_transfer|].
    intros v. destruct (p v); [apply preserves_ret | exact IH].
Qed.

Lemma preserves_read ch : preserves R (read ch).
Proof. apply preserves_transfer. Qed.

Ltac frame_step :=
  first
    [ apply preserves_transfer | apply preserves_read
    | apply preserves_wait_until | frame_prim
    | apply preserves_for_upto; intros ? ?
    | apply preserves_bind; [|intros ?] ].

Ltac frame_all := repeat frame_step.

Lemma preserves_readn ch data num : preserves R (readn ch data num).
Proof. unfold readn. frame_all. Qed.

Lemma preserves_readn_if fuel ch data num p :
  preserves R (readn_if fuel ch data num p).
Proof. unfold readn_if. frame_all. Qed.

Lemma preserves_testSplSpeed_n ch num : preserves R (testSplSpeed_n ch num).
Proof. unfold testSplSpeed_n, div_round. frame_all. Qed.

Lemma preserves_toAnalog raw : preserves R (toAnalog raw).
Proof. unfold toAnalog. frame_all. Qed.

Lemma preserves_toDigital val : preserves R (toDigital val).
Proof. unfold toDigital. frame_all. Qed.

Lemma preserves_getVref : preserves R getVref.
Proof. unfold getVref. frame_all. Qed.

Lemma preserves_getAnalogRes : preserves R getAnalogRes.
Proof. unfold getAnalogRes. frame_all. Qed.

(** Every method declared [const] relates the object to itself. *)
Lemma preserves_const fuel c :
  declared_const c = true -> preserves R (invoke fuel c).
Proof.
  destruct c; intros Hc; try discriminate Hc; unfold invoke;
    (apply preserves_bind; [|intros ?; apply preserves_ret]).
  - apply preserves_read.
  - apply preserves_readn.
  - apply preserves_readn_if.
  - apply preserves_testSplSpeed_n.
  - apply preserves_testSplSpeed_n.
  - apply preserves_toAnalog.
  - apply preserves_toDigital.
  - apply preserves_getVref.
  - apply preserves_getAnalogRes.
Qed.

(** The rate-aware methods do to the object what [getSplDelay] does. *)
Context (R_delay : forall ch f, preserves R (getSplDelay ch f)).

Ltac frame_rated := repeat first [apply R_delay | frame_step].

Lemma preserves_readn_at ch data num f : preserves R (readn_at ch data num f).
Proof. unfold readn_at. frame_rated. Qed.

Lemma preserves_readn_if_at fuel ch data num f p :
  preserves R (readn_if_at fuel ch data num f p).
Proof. unfold readn_if_at. frame_rated. Qed.

Lemma preserves_testSplSpeed_at ch num f :
  preserves R (testSplSpeed_at ch num f).
Proof. unfold testSplSpeed_at, div_round. frame_rated. Qed.

Lemma preserves_invoke fuel c :
  explicit_calibration c = false -> preserves R (invoke fuel c).
Proof.
  intros Hc. destruct (declared_const c) eqn:Hconst.
  - now apply preserves_const.
  - destruct c; try discriminate Hc; try discriminate Hconst; unfold invoke;
      (apply preserves_bind; [|intros ?; apply preserves_ret]).
    + apply preserves_readn_at.
    + apply preserves_readn_if_at.
    + apply preserves_testSplSpeed_at.
Qed.

Lemma preserves_run fuel cs :
  forallb (fun c => negb (explicit_calibration c)) cs = true ->
  preserves R (run fuel cs).
Proof.
  induction cs as [|c cs IH]; cbn [run forallb]; intros Hcs.
  - apply preserves_ret.
  - apply andb_prop in Hcs as [Hc Hcs].
    apply preserves_bind.
    + apply preserves_invoke. now destruct (explicit_calibration c).
    + intros r. apply preserves_bind; [now apply IH|].
      intros rs. apply preserves_ret.
Qed.

End Frame.

Lemma Done_inv {A} (a a' : A) (d d' : Device) (w w' : World) :
  Done (a, (d, w)) = Done (a', (d', w')) -> a = a' /\ d = d' /\ w = w'.
Proof. intros H. injection H as -> -> ->. repeat split. Qed.

Lemma same_config_refl d : same_config d d.
Proof. repeat split. Qed.

Lemma same_config_trans a b c :
  same_config a b -> same_config b c -> same_config a c.
Proof. unfold same_config. intuition congruence. Qed.

Lemma sticky_refl d : sticky d d.
Proof. intros _. reflexivity. Qed.

Lemma sticky_trans a b c : sticky a b -> sticky b c -> sticky a c.
Proof.
  unfold sticky. intros Hab Hbc Ha.
  pose proof (Hab Ha) as ->. exact (Hbc Ha).
Qed.

Lemma calibrate_same_config ch : preserves same_config (calibrate ch).
Proof.
  intros d w a d' w' H. rewrite calibrate_eq in H.
  apply Done_inv in H as (_ & <- & _). repeat split.
Qed.

Lemma getSplDelay_same_config ch f : preserves same_config (getSplDelay ch f).
Proof.
  intros d w a d' w' H.
  destruct (Z.eq_dec f 0) as [->|Hf]; [discriminate H|].
  destruct (Z.eq_dec (mSplSpeed d) 0) as [Hb|Hb].
  - rewrite (getSplDelay_uncalibrated ch f d w Hf Hb) in H.
    rewrite (bind_done _ _ _ _ _ (calibrate_eq ch d w)) in H.
    apply Done_inv in H as (_ & <- & _). repeat split.
  - rewrite (getSplDelay_calibrated ch f d w Hf Hb) in H.
    apply Done_inv in H as (_ & <- & _). apply same_config_refl.
Qed.

Lemma getSplDelay_sticky ch f : preserves sticky (getSplDelay ch f).
Proof.
  intros d w a d' w' H Hb.
  destruct (Z.eq_dec f 0) as [->|Hf]; [discriminate H|].
  rewrite (getSplDelay_calibrated ch f d w Hf Hb) in H.
  apply Done_inv in H as (_ & <- & _). reflexivity.
Qed.

Lemma calibrate_moves_clock ch d w d' w' :
  calibrate ch (d, w) = Done (tt, (d', w')) ->
  readings w' = S (S (readings w)).
Proof.
  rewrite calibrate_eq. intros H. apply Done_inv in H as (_ & _ & <-).
  destruct (after_burst_counters d (createCmd ch) None 256 (after_micros w))
    as (_ & Hr & _).
  unfold after_micros at 1. cbn [readings]. rewrite Hr. reflexivity.
Qed.

Lemma invoke_same_config fuel c : preserves same_config (invoke fuel c).
Proof.
  destruct (explicit_calibration c) eqn:Hc.
  - destruct c; try discriminate Hc. unfold invoke.
    apply (preserves_bind same_config same_config_trans).
    + apply calibrate_same_config.
    + intros _. apply (preserves_ret same_config same_config_refl).
  - exact (preserves_invoke same_config same_config_refl same_config_trans
             getSplDelay_same_config fuel c Hc).
Qed.

Lemma same_config_with_mSplSpeed d d' :
  same_config d d' -> d' = with_mSplSpeed (mSplSpeed d') d.
Proof.
  intros (Hv & Hp & Hs). destruct d, d'; unfold with_mSplSpeed; cbn in *.
  congruence.
Qed.

(** C9. Whatever method is called, the reference voltage, the select pin
    and the bus handle of the object stay as they were; a method declared
    [const] ([read], both fixed-count [readn] and [readn_if] without a
    frequency, [toAnalog], [toDigital], the speed measurements without a
    frequency, the getters) leaves the whole object unchanged, so that
    only [calibrate] and the rate-aware methods can change it, and then
    only its calibrated baseline. *)
Theorem only_baseline_is_mutable :
  forall (fuel : nat) (c : Call) (d : Device) (w : World)
         (r : Reply) (d' : Device) (w' : World),
    invoke fuel c (d, w) = Done (r, (d', w')) ->
    same_config d d'
    /\ (declared_const c = true -> d' = d)
    /\ d' = with_mSplSpeed (mSplSpeed d') d.
Proof.
  intros fuel c d w r d' w' H.
  pose proof (invoke_same_config fuel c d w r d' w' H) as Hcfg.
  split; [exact Hcfg|]. split.
  - intros Hconst.
    exact (preserves_const (fun a b => b = a) (fun a => eq_refl)
             (fun a b c Hab Hbc => eq_trans Hbc Hab) fuel c Hconst
             d w r d' w' H).
  - now apply same_config_with_mSplSpeed.
Qed.

Lemma only_baseline_is_mutable_witness :
  invoke 0 (ReadnAt 0 [0; 0] 2 1000)
    (mkDevice 3300 10 20000 0, simulated (frames [5; 7]) []) =
    Done (Buffer [5; 7],
          (mkDevice 3300 10 20000 0,
           after_burst (mkDevice 3300 10 20000 0) (createCmd 0) (Some 980) 2
             (simulated (frames [5; 7]) [])))
  /\ same_config (mkDevice 3300 10 20000 0) (mkDevice 3300 10 20000 0)
  /\ (declared_const (ReadnAt 0 [0; 0] 2 1000) = true ->
      mkDevice 3300 10 20000 0 = mkDevice 3300 10 20000 0)
  /\ mkDevice 3300 10 20000 0 =
       with_mSplSpeed (mSplSpeed (mkDevice 3300 10 20000 0))
         (mkDevice 3300 10 20000 0).
Proof.
  split; [reflexivity|].
  apply (only_baseline_is_mutable 0 (ReadnAt 0 [0; 0] 2 1000)
           (mkDevice 3300 10 20000 0) (simulated (frames [5; 7]) [])
           (Buffer [5; 7]) (mkDevice 3300 10 20000 0)
           (after_burst (mkDevice 3300 10 20000 0) (createCmd 0) (Some 980) 2
              (simulated (frames [5; 7]) []))).
  reflexivity.
Defined.

(** C8. The baseline is lazy and sticky.  [calibrate] always overwrites it
    with a fresh 256-sample measurement.  [getSplDelay] runs [calibrate]
    first if and only if the stored baseline is 0; with a nonzero baseline
    it touches neither the object nor the platform and computes the delay
    from the stored value.  Over any sequence of method calls without an
    explicit [calibrate], a nonzero baseline (and with it the whole object)
    stays as it was. *)
Theorem baseline_lazy_and_sticky :
  forall (ch f : Z) (d : Device) (w : World),
    f <> 0 ->
    let fresh := measured (u32 (timer w (readings w)))
                          (u32 (timer w (S (readings w)))) 256 in
    let w' := after_micros
                (after_burst d (createCmd ch) None 256 (after_micros w)) in
    testSplSpeed_n ch 256 (d, w) = Done (fresh, (d, w'))
    /\ calibrate ch (d, w) = Done (tt, (with_mSplSpeed fresh d, w'))
    /\ (getSplDelay ch f (d, w) =
          (calibrate ch ;; d' <- this ; ret (pause_for f (mSplSpeed d'))) (d, w)
        <-> mSplSpeed d = 0)
    /\ (mSplSpeed d = 0 ->
        getSplDelay ch f (d, w) =
          Done (pause_for f fresh, (with_mSplSpeed fresh d, w')))
    /\ (mSplSpeed d <> 0 ->
        getSplDelay ch f (d, w) = Done (pause_for f (mSplSpeed d), (d, w)))
    /\ (forall fuel cs rs d2 w2,
          mSplSpeed d <> 0 ->
          forallb (fun c => negb (explicit_calibration c)) cs = true ->
          run fuel cs (d, w) = Done (rs, (d2, w2)) ->
          d2 = d).
Proof.
  intros ch f d w Hf fresh w'.
  assert (Hcal : calibrate ch (d, w) = Done (tt, (with_mSplSpeed fresh d, w')))
    by apply calibrate_eq.
  assert (Hlazy : mSplSpeed d = 0 ->
            getSplDelay ch f (d, w) =
              Done (pause_for f fresh, (with_mSplSpeed fresh d, w'))).
  { intros Hb. rewrite (getSplDelay_uncalibrated ch f d w Hf Hb).
    rewrite (bind_done _ _ _ _ _ Hcal). reflexivity. }
  split; [apply testSplSpeed_n_eq; lia|].
  split; [exact Hcal|]. split; [|split; [exact Hlazy|split]].
  - split.
    + intros Heq. destruct (Z.eq_dec (mSplSpeed d) 0) as [Hb|Hb]; [exact Hb|].
      exfalso.
      rewrite (getSplDelay_calibrated ch f d w Hf Hb) in Heq.
      rewrite (bind_done _ _ _ _ _ Hcal) in Heq.
      apply Done_inv in Heq as (_ & _ & Hw).
      pose proof (calibrate_moves_clock ch d w _ _ Hcal) as Hclock.
      rewrite <- Hw in Hclock. lia.
    + intros Hb. now apply getSplDelay_uncalibrated.
  - intros Hb. now apply getSplDelay_calibrated.
  - intros fuel cs rs d2 w2 Hb Hcs Hrun.
    exact (preserves_run sticky sticky_refl sticky_trans getSplDelay_sticky
             fuel cs Hcs d w rs d2 w2 Hrun Hb).
Qed.

Lemma baseline_lazy_and_sticky_witness :
  getSplDelay 0 1000 (mkDevice 3300 10 20000 0, simulated [] []) =
    Done (pause_for 1000 20000, (mkDevice 3300 10 20000 0, simulated [] []))
  /\ pause_for 1000 20000 = 980.
Proof.
  split; [|reflexivity].
  apply (baseline_lazy_and_sticky 0 1000 (mkDevice 3300 10 20000 0)
           (simulated [] [])); [lia | simpl; lia].
Defined.

(** ** The unguarded division *)

Lemma pause_for_nonneg f b : 0 <= pause_for f b.
Proof.
  unfold pause_for. cbv zeta.
  destruct (_ <? 0); [lia|]. unfold u16. apply Z.mod_pos_bound. lia.
Qed.

Lemma getSplDelay_defined ch f d w :
  f <> 0 ->
  exists d' w',
    getSplDelay ch f (d, w) = Done (pause_for f (mSplSpeed d'), (d', w')).
Proof.
  intros Hf. destruct (Z.eq_dec (mSplSpeed d) 0) as [Hb|Hb].
  - rewrite (getSplDelay_uncalibrated ch f d w Hf Hb).
    rewrite (bind_done _ _ _ _ _ (calibrate_eq ch d w)).
    eexists. eexists. reflexivity.
  - exists d, w. now apply getSplDelay_calibrated.
Qed.

(** C10. [getSplDelay] divides 1000000000 by the frequency without a
    guard: it is undefined exactly when the frequency is 0, and with it
    both rate-limited reads and the measurement under a delay; for every
    positive frequency it returns a delay that is not negative, and the
    rate-limited read returns. *)
Theorem zero_frequency_undefined :
  forall (ch f : Z) (d : Device) (w : World),
    0 <= f ->
    div_round 1000000000 0 (d, w) = Undefined
    /\ (getSplDelay ch f (d, w) = Undefined <-> f = 0)
    /\ (f = 0 ->
        forall fuel data num p,
          readn_at ch data num f (d, w) = Undefined
          /\ readn_if_at fuel ch data num f p (d, w) = Undefined
          /\ testSplSpeed_at ch num f (d, w) = Undefined)
    /\ (0 < f ->
        (exists d' w',
            getSplDelay ch f (d, w) =
              Done (pause_for f (mSplSpeed d'), (d', w'))
            /\ 0 <= pause_for f (mSplSpeed d'))
        /\ (forall data num,
              (Z.to_nat num <= length data)%nat ->
              exists b d' w',
                readn_at ch data num f (d, w) = Done (b, (d', w')))).
Proof.
  intros ch f d w Hf0. split; [reflexivity|]. split; [|split].
  - split.
    + intros Hu. destruct (Z.eq_dec f 0) as [E|E]; [exact E|].
      destruct (getSplDelay_defined ch f d w E) as (d' & w' & H).
      rewrite H in Hu. discriminate Hu.
    + intros ->. apply getSplDelay_zero.
  - intros -> fuel data num p. repeat split.
  - intros Hf.
    destruct (getSplDelay_defined ch f d w ltac:(lia)) as (d' & w' & H).
    split.
    + exists d', w'. split; [exact H | apply pause_for_nonneg].
    + intros data num Hlen. unfold readn_at.
      rewrite (bind_done _ _ _ _ _ H).
      rewrite (for_upto_collect (createCmd ch)
                 (Some (pause_for f (mSplSpeed d'))))
        by (apply store_pause_body || lia).
      eexists. eexists. eexists. reflexivity.
Qed.

Lemma zero_frequency_undefined_witness :
  0 <= 0 /\
  getSplDelay 3 0 (MCP3208 3300 10 0, simulated [] []) = Undefined /\
  readn_at 3 [0; 0] 2 0 (MCP3208 3300 10 0, simulated [] []) = Undefined.
Proof.
  assert (H : 0 <= 0) by lia.
  destruct (zero_frequency_undefined 3 0 (MCP3208 3300 10 0)
              (simulated [] []) H) as (_ & Hget & Hrated & _).
  split; [exact H|]. split.
  - apply Hget. reflexivity.
  - apply (Hrated eq_refl 0%nat [0; 0] 2 (fun _ => true)).
Defined.

(** ** Further properties of the reads *)

(** Closed numeric side conditions. *)
Ltac by_value :=
  first [ lia | reflexivity | (vm_compute; discriminate)
        | (split; first [reflexivity | (vm_compute; discriminate)]) ].

Lemma sample_events_next pause d cmd w k :
  sample_events d cmd (after_pause pause (after_transfer d cmd w)) k =
    sample_events d cmd w (S k).
Proof.
  set (w1 := after_pause pause (after_transfer d cmd w)).
  assert (He : exchanged w1 = S (S (S (exchanged w))))
    by (destruct pause; reflexivity).
  assert (Hm : miso w1 = miso w) by (destruct pause; reflexivity).
  unfold sample_events. rewrite He, Hm.
  replace (3 * k + S (S (S (exchanged w))))%nat
    with (3 * S k + exchanged w)%nat by lia.
  reflexivity.
Qed.

Lemma trace_after_step pause d cmd w :
  trace (after_pause pause (after_transfer d cmd w)) =
    trace w ++ sample_events d cmd w 0 ++ pause_events pause.
Proof.
  destruct pause as [us|]; simpl.
  - rewrite <- app_assoc. reflexivity.
  - reflexivity.
Qed.

Lemma trace_after_burst d cmd pause n :
  forall w,
    trace (after_burst d cmd pause n w) =
      trace w ++ burst_events d cmd pause w n.
Proof.
  induction n as [|n IH]; intros w.
  - simpl. rewrite app_nil_r. reflexivity.
  - cbn [after_burst]. rewrite IH, trace_after_step.
    unfold burst_events. cbn [seq flat_map].
    rewrite <- !app_assoc. do 3 f_equal.
    rewrite <- seq_shift, !flat_map_concat_map, map_map. f_equal.
    apply map_ext. intros k. now rewrite sample_events_next.
Qed.

(** X1. The fixed-count read stores the next [num] samples of the bus, in
    order, in [data[0 .. num)], leaves the rest of the buffer and the object
    alone and makes [3 * num] byte exchanges, each sample inside its own
    select-low/select-high bracket and nothing else on the platform; for
    [num = 0] it touches neither the buffer nor the platform. *)
Theorem readn_collects :
  forall (ch : Z) (data : list Z) (num : Z) (d : Device) (w : World),
    (Z.to_nat num <= length data)%nat ->
    let n := Z.to_nat num in
    let w' := after_burst d (createCmd ch) None n w in
    readn ch data num (d, w) =
      Done (map (sample_at w) (seq 0 n) ++ drop n data, (d, w'))
    /\ length (map (sample_at w) (seq 0 n) ++ drop n data) = length data
    /\ exchanged w' = (exchanged w + 3 * n)%nat
    /\ readings w' = readings w
    /\ trace w' = trace w ++ burst_events d (createCmd ch) None w n
    /\ readn ch data 0 (d, w) = Done (data, (d, w)).
Proof.
  intros ch data num d w Hlen n w'.
  destruct (after_burst_counters d (createCmd ch) None n w) as (He & Hr & _).
  split; [|split; [|split; [|split; [|split]]]].
  - unfold readn.
    rewrite (for_upto_collect (createCmd ch) None) by (apply store_body || lia).
    reflexivity.
  - rewrite length_app, length_map, length_seq, length_drop. fold n in Hlen. lia.
  - exact He.
  - exact Hr.
  - apply trace_after_burst.
  - reflexivity.
Qed.

Lemma readn_collects_witness :
  readn 0 [9; 9; 9] 2 (MCP3208 3300 10 0, simulated (frames [5; 7]) []) =
    Done ([5; 7; 9],
          (MCP3208 3300 10 0,
           after_burst (MCP3208 3300 10 0) (createCmd 0) None 2
             (simulated (frames [5; 7]) []))).
Proof.
  assert (Hlen : (Z.to_nat 2 <= length [9; 9; 9])%nat) by (simpl; lia).
  exact (proj1 (readn_collects 0 [9; 9; 9] 2 (MCP3208 3300 10 0)
                  (simulated (frames [5; 7]) []) Hlen)).
Defined.

(** X2. On a calibrated object the rate-limited read stores exactly what
    the fixed-count read stores; on the platform every sample, the last
    one included, is followed by one [delayMicroseconds] of the delay
    computed once from the stored baseline; object and clock are left
    alone. *)
Theorem readn_at_calibrated :
  forall (ch : Z) (data : list Z) (num f : Z) (d : Device) (w : World),
    f <> 0 ->
    mSplSpeed d <> 0 ->
    (Z.to_nat num <= length data)%nat ->
    let n := Z.to_nat num in
    let us := pause_for f (mSplSpeed d) in
    let w' := after_burst d (createCmd ch) (Some us) n w in
    readn_at ch data num f (d, w) =
      Done (map (sample_at w) (seq 0 n) ++ drop n data, (d, w'))
    /\ trace w' = trace w ++ burst_events d (createCmd ch) (Some us) w n
    /\ exchanged w' = (exchanged w + 3 * n)%nat
    /\ readings w' = readings w
    /\ (exists w2,
          readn ch data num (d, w) =
            Done (map (sample_at w) (seq 0 n) ++ drop n data, (d, w2))).
Proof.
  intros ch data num f d w Hf Hb Hlen n us w'.
  destruct (after_burst_counters d (createCmd ch) (Some us) n w)
    as (He & Hr & _).
  split; [|split; [|split; [|split]]].
  - unfold readn_at.
    rewrite (bind_done _ _ _ _ _ (getSplDelay_calibrated ch f d w Hf Hb)).
    rewrite (for_upto_collect (createCmd ch) (Some us))
      by (apply store_pause_body || lia).
    reflexivity.
  - apply trace_after_burst.
  - exact He.
  - exact Hr.
  - eexists. unfold readn.
    rewrite (for_upto_collect (createCmd ch) None) by (apply store_body || lia).
    reflexivity.
Qed.

Lemma readn_at_calibrated_witness :
  readn_at 0 [9; 9; 9] 2 1000
    (mkDevice 3300 10 20000 0, simulated (frames [5; 7]) []) =
    Done ([5; 7; 9],
          (mkDevice 3300 10 20000 0,
           after_burst (mkDevice 3300 10 20000 0) (createCmd 0) (Some 980) 2
             (simulated (frames [5; 7]) []))).
Proof.
  assert (Hf : 1000 <> 0) by lia.
  assert (Hb : mSplSpeed (mkDevice 3300 10 20000 0) <> 0) by (simpl; lia).
  assert (Hlen : (Z.to_nat 2 <= length [9; 9; 9])%nat) by (simpl; lia).
  exact (proj1 (readn_at_calibrated 0 [9; 9; 9] 2 1000
                  (mkDevice 3300 10 20000 0)
                  (simulated (frames [5; 7]) []) Hf Hb Hlen)).
Defined.

Lemma samples_after_burst d cmd pause a w n :
  map (sample_at (after_burst d cmd pause a w)) (seq 0 n) =
    map (sample_at w) (seq a n).
Proof.
  rewrite <- (map_seq_from (sample_at w) a).
  apply map_ext. intros j. apply sample_at_burst.
Qed.


Lemma getSplDelay_fresh ch f d w :
  f <> 0 -> mSplSpeed d = 0 ->
  getSplDelay ch f (d, w) =
    Done (pause_for f (measured (u32 (timer w (readings w)))
                                (u32 (timer w (S (readings w)))) 256),
          (with_mSplSpeed
             (measured (u32 (timer w (readings w)))
                       (u32 (timer w (S (readings w)))) 256) d,
           after_micros
             (after_burst d (createCmd ch) None 256 (after_micros w)))).
Proof.
  intros Hf Hb. rewrite (getSplDelay_uncalibrated ch f d w Hf Hb).
  rewrite (bind_done _ _ _ _ _ (calibrate_eq ch d w)). reflexivity.
Qed.

Lemma exchanged_after_micros w : exchanged (after_micros w) = exchanged w.
Proof. reflexivity. Qed.

Lemma readings_after_micros w : readings (after_micros w) = S (readings w).
Proof. reflexivity. Qed.


Lemma calibration_counters ch d w :
  exchanged (after_micros
               (after_burst d (createCmd ch) None 256 (after_micros w))) =
    (exchanged w + 768)%nat
  /\ readings (after_micros
                 (after_burst d (createCmd ch) None 256 (after_micros w))) =
       (readings w + 2)%nat.
Proof.
  destruct (after_burst_counters d (createCmd ch) None 256 (after_micros w))
    as (He & Hr & _).
  rewrite exchanged_after_micros, readings_after_micros, He, Hr.
  rewrite exchanged_after_micros, readings_after_micros.
  change (3 * 256)%nat with 768%nat. lia.
Qed.



(** X4. The predicate-gated read at a rate, on a calibrated object: the
    delay is computed once before the gating loop; the loop discards
    samples up to and including the first hit (sample [k]) without any
    delay; the next [num] samples are stored in order, each followed by
    the delay.  With no hit within the fuel the call is still spinning. *)
Theorem readn_if_at_gated :
  forall (ch : Z) (data : list Z) (num f : Z) (p : Z -> bool)
         (d : Device) (w : World) (k fuel : nat),
    f <> 0 ->
    mSplSpeed d <> 0 ->
    (Z.to_nat num <= length data)%nat ->
    (forall j, (j < k)%nat -> p (sample_at w j) = false) ->
    p (sample_at w k) = true ->
    (k < fuel)%nat ->
    let n := Z.to_nat num in
    let us := pause_for f (mSplSpeed d) in
    let gated := after_burst d (createCmd ch) None (S k) w in
    let w' := after_burst d (createCmd ch) (Some us) n gated in
    readn_if_at fuel ch data num f p (d, w) =
      Done (map (sample_at w) (seq (S k) n) ++ drop n data, (d, w'))
    /\ trace w' =
         trace w ++ burst_events d (createCmd ch) None w (S k)
                 ++ burst_events d (createCmd ch) (Some us) gated n
    /\ exchanged w' = (exchanged w + 3 * (S k + n))%nat
    /\ (forall fuel', (fuel' <= k)%nat ->
          readn_if_at fuel' ch data num f p (d, w) = Spinning).
Proof.
  intros ch data num f p d w k fuel Hf Hb Hlen Hmiss Hhit Hfuel n us gated w'.
  split; [|split; [|split]].
  - unfold readn_if_at.
    rewrite (bind_done _ _ _ _ _ (getSplDelay_calibrated ch f d w Hf Hb)).
    rewrite (bind_done _ _ _ _ _
               (wait_until_hit p (createCmd ch) d k fuel w Hmiss Hhit Hfuel)).
    rewrite (for_upto_collect (createCmd ch) (Some us))
      by (apply store_pause_body || lia).
    rewrite take_0, Nat.add_0_l, samples_after_burst. reflexivity.
  - unfold w'. rewrite trace_after_burst. unfold gated at 1.
    rewrite trace_after_burst. rewrite <- app_assoc. reflexivity.
  - unfold w'.
    destruct (after_burst_counters d (createCmd ch) (Some us) n gated)
      as (He & _).
    destruct (after_burst_counters d (createCmd ch) None (S k) w)
      as (Hg & _).
    rewrite He. unfold gated at 1. rewrite Hg. lia.
  - intros fuel' Hfuel'. unfold readn_if_at.
    rewrite (bind_done _ _ _ _ _ (getSplDelay_calibrated ch f d w Hf Hb)).
    unfold bind. rewrite wait_until_miss; [reflexivity|].
    intros j Hj. apply Hmiss. lia.
Qed.

Lemma readn_if_at_gated_witness :
  readn_if_at 2 0 [9; 9] 1 1000 (fun v => v =? 42)
    (mkDevice 3300 10 20000 0, simulated (frames [5; 42; 7]) []) =
    Done ([7; 9],
          (mkDevice 3300 10 20000 0,
           after_burst (mkDevice 3300 10 20000 0) (createCmd 0) (Some 980) 1
             (after_burst (mkDevice 3300 10 20000 0) (createCmd 0) None 2
                (simulated (frames [5; 42; 7]) [])))).
Proof.
  assert (Hf : 1000 <> 0) by lia.
  assert (Hb : mSplSpeed (mkDevice 3300 10 20000 0) <> 0) by (simpl; lia).
  assert (Hlen : (Z.to_nat 1 <= length [9; 9])%nat) by (simpl; lia).
  assert (Hmiss : forall j, (j < 1)%nat ->
            (fun v => v =? 42)
              (sample_at (simulated (frames [5; 42; 7]) []) j) = false).
  { intros [|j] Hj; [reflexivity | lia]. }
  assert (Hfuel : (1 < 2)%nat) by lia.
  exact (proj1 (readn_if_at_gated 0 [9; 9] 1 1000 (fun v => v =? 42)
                  (mkDevice 3300 10 20000 0)
                  (simulated (frames [5; 42; 7]) []) 1 2
                  Hf Hb Hlen Hmiss eq_refl Hfuel)).
Defined.

(** ** Further properties of the timing *)

Lemma read_pause_body ch us (i : nat) d w :
  (read ch ;; delayMicroseconds us ;; ret tt) (d, w) =
    Done (tt, (d, after_pause (Some us) (after_transfer d (createCmd ch) w))).
Proof. unfold bind, read. rewrite transfer_eq. reflexivity. Qed.

Lemma trace_after_micros w :
  trace (after_micros w) = trace w ++ [Micros (u32 (timer w (readings w)))].
Proof. reflexivity. Qed.

Lemma timed_burst_effects d cmd pause n w :
  let w' := after_micros (after_burst d cmd pause n (after_micros w)) in
  exchanged w' = (exchanged w + 3 * n)%nat
  /\ readings w' = (readings w + 2)%nat
  /\ trace w' =
       trace w ++ [Micros (u32 (timer w (readings w)))]
               ++ burst_events d cmd pause (after_micros w) n
               ++ [Micros (u32 (timer w (S (readings w))))].
Proof.
  intros w'. unfold w'.
  destruct (after_burst_counters d cmd pause n (after_micros w))
    as (He & Hr & Ht & _).
  rewrite exchanged_after_micros, readings_after_micros, trace_after_micros.
  rewrite He, Hr, Ht, trace_after_burst.
  rewrite exchanged_after_micros, readings_after_micros, trace_after_micros.
  split; [reflexivity|]. split; [lia|].
  rewrite <- !app_assoc. reflexivity.
Qed.

(** X5. The speed measurement over [num] samples divides by [num] without
    a guard: it is undefined exactly for [num = 0].  Otherwise it reads the
    clock, makes [num] conversions ([3 * num] byte exchanges) with nothing
    in between, reads the clock again, leaves the object alone, and its
    result is a function of the two clock readings and [num] only. *)
Theorem testSplSpeed_n_effects :
  forall (ch num : Z) (d : Device) (w : World),
    (testSplSpeed_n ch num (d, w) = Undefined <-> num = 0)
    /\ (num <> 0 ->
        let n := Z.to_nat num in
        let t1 := u32 (timer w (readings w)) in
        let t2 := u32 (timer w (S (readings w))) in
        let w' := after_micros
                    (after_burst d (createCmd ch) None n (after_micros w)) in
        testSplSpeed_n ch num (d, w) = Done (measured t1 t2 num, (d, w'))
        /\ exchanged w' = (exchanged w + 3 * n)%nat
        /\ readings w' = (readings w + 2)%nat
        /\ trace w' =
             trace w ++ [Micros t1]
                     ++ burst_events d (createCmd ch) None (after_micros w) n
                     ++ [Micros t2]).
Proof.
  intros ch num d w. split.
  - split.
    + intros Hu. destruct (Z.eq_dec num 0) as [E|E]; [exact E|].
      rewrite (testSplSpeed_n_eq ch num d w E) in Hu. discriminate Hu.
    + intros ->. reflexivity.
  - intros Hnum n t1 t2 w'. split; [now apply testSplSpeed_n_eq|].
    apply timed_burst_effects.
Qed.

Lemma testSplSpeed_n_effects_witness :
  testSplSpeed_n 0 2 (MCP3208 3300 10 0, simulated [] [100; 150]) =
    Done (25000,
          (MCP3208 3300 10 0,
           after_micros
             (after_burst (MCP3208 3300 10 0) (createCmd 0) None 2
                (after_micros (simulated [] [100; 150]))))).
Proof.
  assert (Hnum : 2 <> 0) by lia.
  exact (proj1 (proj2 (testSplSpeed_n_effects 0 2 (MCP3208 3300 10 0)
                         (simulated [] [100; 150])) Hnum)).
Defined.

(** X6. The measurement under a delay, on a calibrated object and for a
    nonzero frequency: the delay computed from the stored baseline follows
    every conversion inside the timed window, and the two clock readings
    and [num] alone decide the result; for [num = 0] the call is
    undefined. *)
Theorem testSplSpeed_at_effects :
  forall (ch num f : Z) (d : Device) (w : World),
    f <> 0 ->
    mSplSpeed d <> 0 ->
    (num = 0 -> testSplSpeed_at ch num f (d, w) = Undefined)
    /\ (num <> 0 ->
        let n := Z.to_nat num in
        let us := pause_for f (mSplSpeed d) in
        let t1 := u32 (timer w (readings w)) in
        let t2 := u32 (timer w (S (readings w))) in
        let w' := after_micros
                    (after_burst d (createCmd ch) (Some us) n
                       (after_micros w)) in
        testSplSpeed_at ch num f (d, w) = Done (measured t1 t2 num, (d, w'))
        /\ trace w' =
             trace w ++ [Micros t1]
                     ++ burst_events d (createCmd ch) (Some us)
                          (after_micros w) n
                     ++ [Micros t2]).
Proof.
  intros ch num f d w Hf Hb. split.
  - intros ->. unfold testSplSpeed_at.
    rewrite (bind_done _ _ _ _ _ (getSplDelay_calibrated ch f d w Hf Hb)).
    reflexivity.
  - intros Hnum n us t1 t2 w'. split; [|apply timed_burst_effects].
    unfold testSplSpeed_at.
    rewrite (bind_done _ _ _ _ _ (getSplDelay_calibrated ch f d w Hf Hb)).
    rewrite (bind_done _ _ _ _ _ (micros_eq d w)).
    rewrite (bind_done _ _ _ _ _
               (for_upto_discard (createCmd ch) (Some us) _
                  (fun i => read_pause_body ch us i) n 0%nat d
                  (after_micros w))).
    rewrite (bind_done _ _ _ _ _ (micros_eq d _)).
    destruct (after_burst_counters d (createCmd ch) (Some us) n
                (after_micros w)) as (_ & Hr & Ht & _).
    rewrite Hr, Ht. unfold div_round, udiv, measured.
    destruct (Z.eqb_spec num 0) as [E|_]; [contradiction|]. reflexivity.
Qed.

Lemma testSplSpeed_at_effects_witness :
  testSplSpeed_at 0 2 1000
    (mkDevice 3300 10 20000 0, simulated [] [100; 2150]) =
    Done (1025000,
          (mkDevice 3300 10 20000 0,
           after_micros
             (after_burst (mkDevice 3300 10 20000 0) (createCmd 0) (Some 980) 2
                (after_micros (simulated [] [100; 2150]))))).
Proof.
  assert (Hf : 1000 <> 0) by lia.
  assert (Hb : mSplSpeed (mkDevice 3300 10 20000 0) <> 0) by (simpl; lia).
  assert (Hnum : 2 <> 0) by lia.
  exact (proj1 (proj2 (testSplSpeed_at_effects 0 2 1000
                         (mkDevice 3300 10 20000 0)
                         (simulated [] [100; 2150]) Hf Hb) Hnum)).
Defined.

Lemma elapsed_shift t1 t2 c :
  u32 (u32 (t2 + c) - u32 (t1 + c)) = u32 (u32 t2 - u32 t1).
Proof.
  unfold u32. rewrite <- !Zminus_mod. f_equal. lia.
Qed.

(** X7. The measurement only sees the difference of the two clock readings
    modulo 2^32: two platforms whose clocks differ by a constant offset
    give the same result, also when the counter wraps around between the
    readings on one of them. *)
Theorem testSplSpeed_n_clock_offset :
  forall (ch num c : Z) (d : Device) (w w2 : World),
    num <> 0 ->
    timer w2 (readings w2) = timer w (readings w) + c ->
    timer w2 (S (readings w2)) = timer w (S (readings w)) + c ->
    exists r s s2,
      testSplSpeed_n ch num (d, w) = Done (r, s)
      /\ testSplSpeed_n ch num (d, w2) = Done (r, s2).
Proof.
  intros ch num c d w w2 Hnum H1 H2.
  rewrite (testSplSpeed_n_eq ch num d w Hnum).
  rewrite (testSplSpeed_n_eq ch num d w2 Hnum).
  eexists. eexists. eexists. split; [reflexivity|].
  f_equal. f_equal. unfold measured. rewrite H1, H2, elapsed_shift.
  reflexivity.
Qed.

Lemma testSplSpeed_n_clock_offset_witness :
  exists r s s2,
    testSplSpeed_n 0 2 (MCP3208 3300 10 0, simulated [] [100; 150]) =
      Done (r, s)
    /\ testSplSpeed_n 0 2
         (MCP3208 3300 10 0, simulated [] [4294967276; 4294967326]) =
         Done (r, s2).
Proof.
  apply (testSplSpeed_n_clock_offset 0 2 4294967176 (MCP3208 3300 10 0)
           (simulated [] [100; 150])
           (simulated [] [4294967276; 4294967326]));
    [lia | reflexivity | reflexivity].
Defined.

(** X8. As long as the elapsed time in nanoseconds plus a quarter of the
    sample count fits 32 bits, the measurement is the per-sample time
    rounded with a bias of a quarter: it exceeds the exact quotient by at
    most 1/4 and falls short of it by less than 3/4 + 1/num. *)
Theorem testSplSpeed_n_accuracy :
  forall (ch num : Z) (d : Device) (w : World),
    let t1 := timer w (readings w) in
    let t2 := timer w (S (readings w)) in
    0 < num ->
    0 <= t1 <= t2 ->
    t2 < 2 ^ 32 ->
    (t2 - t1) * 1000 + num / 4 < 2 ^ 32 ->
    exists r s,
      testSplSpeed_n ch num (d, w) = Done (r, s)
      /\ r = ((t2 - t1) * 1000 + num / 4) / num
      /\ 4 * (r * num - (t2 - t1) * 1000) <= num
      /\ 4 * ((t2 - t1) * 1000 - r * num) < 3 * num + 4.
Proof.
  intros ch num d w t1 t2 Hnum Ht Ht2 Hfit.
  rewrite (testSplSpeed_n_eq ch num d w ltac:(lia)).
  eexists. eexists. split; [reflexivity|].
  fold t1 t2. unfold measured.
  rewrite (u32_small t1), (u32_small t2) by lia.
  rewrite (u32_small (t2 - t1)) by lia.
  rewrite Z.shiftr_div_pow2 by lia. change (2 ^ 2) with 4.
  assert (Hq : 0 <= num / 4) by (apply Z.div_pos; lia).
  rewrite (u32_small ((t2 - t1) * 1000)) by lia.
  rewrite u32_small by lia.
  split; [reflexivity|].
  pose proof (Z.mul_div_le ((t2 - t1) * 1000 + num / 4) num Hnum).
  pose proof (Z.mul_succ_div_gt ((t2 - t1) * 1000 + num / 4) num Hnum).
  pose proof (Z.mul_div_le num 4 ltac:(lia)).
  pose proof (Z.mul_succ_div_gt num 4 ltac:(lia)).
  lia.
Qed.

Lemma testSplSpeed_n_accuracy_witness :
  exists r s,
    testSplSpeed_n 0 64 (MCP3208 3300 10 0, simulated [] [0; 1]) = Done (r, s)
    /\ r = ((1 - 0) * 1000 + 64 / 4) / 64
    /\ 4 * (r * 64 - (1 - 0) * 1000) <= 64
    /\ 4 * ((1 - 0) * 1000 - r * 64) < 3 * 64 + 4.
Proof.
  apply (testSplSpeed_n_accuracy 0 64 (MCP3208 3300 10 0)
           (simulated [] [0; 1])); simpl; first [lia | reflexivity].
Defined.

(** X9. [calibrate] always returns: whatever the object and the platform,
    it makes 256 conversions (768 byte exchanges) between two clock
    readings and stores a baseline between 0 and 16777215 ns that depends
    on the two clock readings only. *)
Theorem calibrate_effects :
  forall (ch : Z) (d : Device) (w : World),
    let fresh := measured (u32 (timer w (readings w)))
                          (u32 (timer w (S (readings w)))) 256 in
    exists w',
      calibrate ch (d, w) = Done (tt, (with_mSplSpeed fresh d, w'))
      /\ 0 <= fresh <= 16777215
      /\ exchanged w' = (exchanged w + 768)%nat
      /\ readings w' = (readings w + 2)%nat.
Proof.
  intros ch d w fresh. eexists. split; [apply calibrate_eq|].
  split; [|apply calibration_counters].
  unfold fresh, measured.
  pose proof (u32_range
    (u32 (u32 (u32 (timer w (S (readings w))) - u32 (timer w (readings w)))
          * 1000) + Z.shiftr 256 2)) as Hu.
  split.
  - apply Z.div_pos; lia.
  - apply Z.lt_succ_r. apply Z.div_lt_upper_bound; lia.
Qed.

(** ** Further properties of the delay computation *)

Lemma s16_small x : 0 <= x < 2 ^ 15 -> s16 x = x.
Proof.
  intros H. unfold s16. cbv zeta. rewrite u16_small by lia.
  destruct (Z.ltb_spec x (2 ^ 15)); [reflexivity | lia].
Qed.

Lemma s16_high x : 2 ^ 15 <= x < 2 ^ 16 -> s16 x = x - 2 ^ 16.
Proof.
  intros H. unfold s16. cbv zeta. rewrite u16_small by lia.
  destruct (Z.ltb_spec x (2 ^ 15)); [lia | reflexivity].
Qed.

Lemma s16_range x : - 2 ^ 15 <= s16 x < 2 ^ 15.
Proof.
  unfold s16. cbv zeta.
  assert (H : 0 <= u16 x < 2 ^ 16) by (unfold u16; apply Z.mod_pos_bound; lia).
  destruct (Z.ltb_spec (u16 x) (2 ^ 15)); lia.
Qed.

Lemma pause_for_range f b : 0 <= pause_for f b <= 32767.
Proof.
  split; [apply pause_for_nonneg|].
  unfold pause_for. cbv zeta.
  set (delay := s16 _). pose proof (s16_range (u32
    (u32 (1000000000 + Z.shiftr f 2) / f - b) / 1000)) as Hr.
  fold delay in Hr.
  destruct (Z.ltb_spec delay 0); [lia|].
  rewrite u16_small by lia. lia.
Qed.

Lemma period_fits f :
  0 < f < 2 ^ 32 ->
  u32 (1000000000 + Z.shiftr f 2) / f = (1000000000 + f / 4) / f
  /\ 0 <= (1000000000 + f / 4) / f < 2 ^ 31.
Proof.
  intros Hf. rewrite Z.shiftr_div_pow2 by lia. change (2 ^ 2) with 4.
  assert (H4 : 0 <= f / 4 < 2 ^ 30).
  { split; [apply Z.div_pos; lia | apply Z.div_lt_upper_bound; lia]. }
  rewrite u32_small by lia. split; [reflexivity|]. split.
  - apply Z.div_pos; lia.
  - apply Z.div_lt_upper_bound; nia.
Qed.

(** X10. Whenever [getSplDelay] returns, the delay lies between 0 and
    32767 microseconds: a longer pause cannot be asked of it. *)
Theorem getSplDelay_range :
  forall (ch f : Z) (d : Device) (w : World) (us : Z) (s' : State),
    getSplDelay ch f (d, w) = Done (us, s') ->
    0 <= us <= 32767.
Proof.
  intros ch f d w us s' H.
  destruct (Z.eq_dec f 0) as [->|Hf]; [discriminate H|].
  destruct (getSplDelay_defined ch f d w Hf) as (d' & w' & E).
  rewrite E in H. destruct s' as [d2 w2].
  apply Done_inv in H as (<- & _ & _). apply pause_for_range.
Qed.

Lemma getSplDelay_range_witness :
  getSplDelay 0 1000 (mkDevice 3300 10 20000 0, simulated [] []) =
    Done (980, (mkDevice 3300 10 20000 0, simulated [] []))
  /\ 0 <= 980 <= 32767.
Proof.
  assert (H : getSplDelay 0 1000
                (mkDevice 3300 10 20000 0, simulated [] []) =
              Done (980, (mkDevice 3300 10 20000 0, simulated [] [])))
    by reflexivity.
  split; [exact H|].
  exact (getSplDelay_range 0 1000 _ _ 980 _ H).
Defined.

(** X11. Where the delay is what one expects: on a calibrated object, for
    a frequency whose period [(1000000000 + f / 4) / f] is not below the
    baseline and exceeds it by less than 32768000 ns, [getSplDelay]
    returns the difference in whole microseconds and touches nothing. *)
Theorem getSplDelay_exact :
  forall (ch f : Z) (d : Device) (w : World),
    0 < f < 2 ^ 32 ->
    0 < mSplSpeed d ->
    mSplSpeed d <= (1000000000 + f / 4) / f ->
    (1000000000 + f / 4) / f - mSplSpeed d < 32768000 ->
    getSplDelay ch f (d, w) =
      Done (((1000000000 + f / 4) / f - mSplSpeed d) / 1000, (d, w)).
Proof.
  intros ch f d w Hf Hb Hle Hlt.
  rewrite getSplDelay_calibrated by lia.
  destruct (period_fits f Hf) as (Hp & Hr).
  unfold pause_for. cbv zeta. rewrite Hp.
  set (diff := (1000000000 + f / 4) / f - mSplSpeed d) in *.
  rewrite (u32_small diff) by lia.
  assert (Hq : 0 <= diff / 1000 < 2 ^ 15).
  { split; [apply Z.div_pos; lia | apply Z.div_lt_upper_bound; lia]. }
  rewrite s16_small by exact Hq.
  destruct (Z.ltb_spec (diff / 1000) 0); [lia|].
  rewrite u16_small by lia. reflexivity.
Qed.

Lemma getSplDelay_exact_witness :
  getSplDelay 0 1000 (mkDevice 3300 10 20000 0, simulated [] []) =
    Done (((1000000000 + 1000 / 4) / 1000 - 20000) / 1000,
          (mkDevice 3300 10 20000 0, simulated [] [])).
Proof.
  apply (getSplDelay_exact 0 1000 (mkDevice 3300 10 20000 0)
           (simulated [] [])); by_value.
Defined.

(** X12. Where the delay is lost: when the period exceeds the baseline by
    32768000 ns or more, but by less than 65536000 ns (about 15 to 30 Hz
    on a fast bus), the quotient no longer fits [int16_t], reads as
    negative and is clamped: [getSplDelay] returns 0 and the reads run
    unpaced. *)
Theorem getSplDelay_slow_rate_unpaced :
  forall (ch f : Z) (d : Device) (w : World),
    0 < f < 2 ^ 32 ->
    0 < mSplSpeed d ->
    32768000 <= (1000000000 + f / 4) / f - mSplSpeed d < 65536000 ->
    getSplDelay ch f (d, w) = Done (0, (d, w)).
Proof.
  intros ch f d w Hf Hb Hd.
  rewrite getSplDelay_calibrated by lia.
  destruct (period_fits f Hf) as (Hp & Hr).
  unfold pause_for. cbv zeta. rewrite Hp.
  set (diff := (1000000000 + f / 4) / f - mSplSpeed d) in *.
  rewrite (u32_small diff) by lia.
  assert (Hq : 2 ^ 15 <= diff / 1000 < 2 ^ 16).
  { split; [apply Z.div_le_lower_bound; lia | apply Z.div_lt_upper_bound; lia]. }
  rewrite s16_high by exact Hq.
  destruct (Z.ltb_spec (diff / 1000 - 2 ^ 16) 0); [reflexivity | lia].
Qed.

Lemma getSplDelay_slow_rate_unpaced_witness :
  getSplDelay 0 20 (mkDevice 3300 10 20000 0, simulated [] []) =
    Done (0, (mkDevice 3300 10 20000 0, simulated [] [])).
Proof.
  apply (getSplDelay_slow_rate_unpaced 0 20 (mkDevice 3300 10 20000 0)
           (simulated [] [])); by_value.
Defined.

Lemma measured_same_reading t num :
  measured t t num = u32 (Z.shiftr num 2) / num.
Proof.
  unfold measured. rewrite Z.sub_diag. reflexivity.
Qed.

(** X13. The sentinel can collide with a measurement: if the clock shows
    the same value before and after the calibration burst, the measured
    baseline is 0, the object stays uncalibrated although 768 bytes were
    exchanged, and the next call of [getSplDelay] spends another 768 byte
    exchanges on calibration. *)
Theorem getSplDelay_measures_zero :
  forall (ch f : Z) (d : Device) (w : World),
    f <> 0 ->
    mSplSpeed d = 0 ->
    u32 (timer w (readings w)) = u32 (timer w (S (readings w))) ->
    exists w',
      getSplDelay ch f (d, w) = Done (pause_for f 0, (d, w'))
      /\ exchanged w' = (exchanged w + 768)%nat
      /\ readings w' = (readings w + 2)%nat
      /\ (exists us d'' w'',
            getSplDelay ch f (d, w') = Done (us, (d'', w''))
            /\ exchanged w'' = (exchanged w + 1536)%nat).
Proof.
  intros ch f d w Hf Hb Hsame.
  assert (Hd : with_mSplSpeed 0 d = d).
  { destruct d; unfold with_mSplSpeed; cbn in *. now rewrite Hb. }
  set (w' := after_micros
               (after_burst d (createCmd ch) None 256 (after_micros w))).
  exists w'.
  destruct (calibration_counters ch d w) as (He & Hr). fold w' in He, Hr.
  split; [|split; [exact He|split; [exact Hr|]]].
  - rewrite (getSplDelay_fresh ch f d w Hf Hb). fold w'.
    rewrite <- Hsame, measured_same_reading.
    change (u32 (Z.shiftr 256 2) / 256) with 0. rewrite Hd. reflexivity.
  - destruct (calibration_counters ch d w') as (He2 & _).
    eexists. eexists. eexists. split.
    + apply (getSplDelay_fresh ch f d w' Hf Hb).
    + rewrite He2, He. lia.
Qed.

Lemma getSplDelay_measures_zero_witness :
  exists w',
    getSplDelay 0 1000 (MCP3208 3300 10 0, simulated [] [7; 7]) =
      Done (pause_for 1000 0, (MCP3208 3300 10 0, w'))
    /\ exchanged w' = 768%nat.
Proof.
  assert (Hf : 1000 <> 0) by lia.
  destruct (getSplDelay_measures_zero 0 1000 (MCP3208 3300 10 0)
              (simulated [] [7; 7]) Hf eq_refl eq_refl)
    as (w' & H & He & _).
  exists w'. split; [exact H | exact He].
Defined.

(** ** Further properties of the command word and of the transfer *)

Lemma forall_below (f : Z -> bool) (n : nat) :
  forallb f (map Z.of_nat (seq 0 n)) = true ->
  forall x, 0 <= x < Z.of_nat n -> f x = true.
Proof.
  intros H x Hx. rewrite forallb_forall in H. apply H.
  apply in_map_iff. exists (Z.to_nat x). split; [lia|].
  apply in_seq. lia.
Qed.

(** X14. For the sixteen values of the 4-bit selector the command word
    carries the selector in bits 6 to 9 under the start bit (bit 10) and
    nothing else, so the selector can be read back and different selectors
    give different words.  There is no bounds check: selector [ch + 16]
    gives the same word as [ch]. *)
Theorem createCmd_selector :
  forall a b : Z,
    0 <= a <= 15 ->
    0 <= b <= 15 ->
    Z.land (Z.shiftr (createCmd a) 6) 15 = a
    /\ Z.testbit (createCmd a) 10 = true
    /\ Z.land (createCmd a) 63 = 0
    /\ createCmd a < 2048
    /\ createCmd (a + 16) = createCmd a
    /\ (createCmd a = createCmd b -> a = b).
Proof.
  assert (Hall : forall x, 0 <= x <= 15 -> selector_ok x = true).
  { intros x Hx. apply (forall_below selector_ok 16); [reflexivity | lia]. }
  intros a b Ha Hb.
  pose proof (Hall a Ha) as Hsa. pose proof (Hall b Hb) as Hsb.
  unfold selector_ok in Hsa, Hsb.
  repeat (apply andb_prop in Hsa as [Hsa ?]).
  repeat (apply andb_prop in Hsb as [Hsb ?]).
  apply Z.eqb_eq in Hsa. apply Z.eqb_eq in Hsb.
  repeat split; try assumption.
  - now apply Z.eqb_eq.
  - now apply Z.ltb_lt.
  - now apply Z.eqb_eq.
  - intros E. rewrite <- Hsa, <- Hsb, E. reflexivity.
Qed.

Lemma createCmd_selector_witness :
  Z.land (Z.shiftr (createCmd 5) 6) 15 = 5
  /\ Z.testbit (createCmd 5) 10 = true
  /\ Z.land (createCmd 5) 63 = 0
  /\ createCmd 5 < 2048
  /\ createCmd (5 + 16) = createCmd 5
  /\ (createCmd 5 = createCmd 9 -> 5 = 9).
Proof. apply (createCmd_selector 5 9); lia. Defined.

Lemma lor_disjoint hi lo :
  0 <= hi -> 0 <= lo < 2 ^ 8 -> Z.lor (Z.shiftl hi 8) lo = hi * 256 + lo.
Proof.
  intros Hhi Hlo.
  assert (Hland : Z.land (Z.shiftl hi 8) lo = 0).
  { apply Z.bits_inj'. intros n Hn. rewrite Z.land_spec, Z.bits_0.
    destruct (Z.lt_ge_cases n 8) as [Hlt|Hge].
    - rewrite Z.shiftl_spec_low by lia. reflexivity.
    - rewrite <- (Z.mod_small lo (2 ^ 8)) by lia.
      rewrite Z.mod_pow2_bits_high by lia. apply andb_false_r. }
  rewrite <- Z.lxor_lor by exact Hland.
  rewrite <- Z.add_nocarry_lxor by exact Hland.
  rewrite Z.shiftl_mul_pow2 by lia. reflexivity.
Qed.

(** X15. What [transfer] decodes: if the second response byte carries the
    upper four bits of a 12-bit code in its low nibble, whatever its high
    nibble, and the third byte carries the lower eight bits, [transfer]
    returns that code, whatever the first response byte and whatever the
    command sent. *)
Theorem transfer_decodes :
  forall (cmd : Z) (d : Device) (w : World) (code junk : Z),
    0 <= code <= 4095 ->
    0 <= junk <= 15 ->
    miso w (S (exchanged w)) = junk * 16 + code / 256 ->
    miso w (S (S (exchanged w))) = code mod 256 ->
    transfer cmd (d, w) = Done (code, (d, after_transfer d cmd w)).
Proof.
  intros cmd d w code junk Hc Hj H2 H3.
  rewrite transfer_eq. f_equal. f_equal.
  unfold sample_at. cbn [Nat.mul Nat.add]. rewrite H2, H3.
  assert (Hhi : 0 <= code / 256 < 16).
  { split; [apply Z.div_pos; lia | apply Z.div_lt_upper_bound; lia]. }
  assert (Hlo : 0 <= code mod 256 < 256) by (apply Z.mod_pos_bound; lia).
  rewrite (u8_small (junk * 16 + code / 256)) by lia.
  rewrite (u8_small (code mod 256)) by lia.
  change 15 with (Z.ones 4). rewrite Z.land_ones by lia.
  change (2 ^ 4) with 16.
  rewrite Z.add_comm, Z.mod_add by lia.
  rewrite (Z.mod_small (code / 256) 16) by lia.
  rewrite lor_disjoint by lia.
  pose proof (Z.div_mod code 256 ltac:(lia)). lia.
Qed.

Lemma transfer_decodes_witness :
  transfer 1024 (MCP3208 3300 10 0, simulated [255; 250; 60] []) =
    Done (2620,
          (MCP3208 3300 10 0,
           after_transfer (MCP3208 3300 10 0) 1024
             (simulated [255; 250; 60] []))).
Proof.
  apply (transfer_decodes 1024 (MCP3208 3300 10 0)
           (simulated [255; 250; 60] []) 2620 15); by_value.
Defined.

(** ** Further properties of the conversions *)

(** X16. [toAnalog] is monotone on the codes and never exceeds the
    reference voltage. *)
Theorem toAnalog_monotone :
  forall (raw1 raw2 : Z) (d : Device) (w : World),
    0 <= raw1 <= raw2 ->
    raw2 <= 4095 ->
    0 <= mVref d < 2 ^ 16 ->
    exists v1 v2,
      toAnalog raw1 (d, w) = Done (v1, (d, w))
      /\ toAnalog raw2 (d, w) = Done (v2, (d, w))
      /\ 0 <= v1 <= v2
      /\ v2 <= mVref d.
Proof.
  intros raw1 raw2 d w H1 H2 Hv.
  exists (raw1 * mVref d / 4095), (raw2 * mVref d / 4095).
  rewrite !toAnalog_eq by lia.
  split; [reflexivity|]. split; [reflexivity|].
  destruct (scaled_fits raw2 (mVref d) ltac:(lia) Hv) as (_ & Hq).
  split; [split|lia].
  - apply Z.div_pos; nia.
  - apply Z.div_le_mono; nia.
Qed.

Lemma toAnalog_monotone_witness :
  exists v1 v2,
    toAnalog 100 (MCP3208 3300 10 0, simulated [] []) =
      Done (v1, (MCP3208 3300 10 0, simulated [] []))
    /\ toAnalog 200 (MCP3208 3300 10 0, simulated [] []) =
         Done (v2, (MCP3208 3300 10 0, simulated [] []))
    /\ 0 <= v1 <= v2
    /\ v2 <= mVref (MCP3208 3300 10 0).
Proof.
  apply (toAnalog_monotone 100 200 (MCP3208 3300 10 0) (simulated [] []));
    by_value.
Defined.



(** X18. The other round trip: for a voltage up to a positive reference
    voltage, converting to a code and back never overshoots and loses less
    than one code step plus one unit. *)
Theorem toAnalog_toDigital_below :
  forall (val : Z) (d : Device) (w : World),
    0 <= val <= mVref d ->
    0 < mVref d < 2 ^ 16 ->
    exists back,
      (r <- toDigital val ; toAnalog r) (d, w) = Done (back, (d, w))
      /\ back <= val
      /\ 4095 * (val - back) < mVref d + 4095.
Proof.
  intros val d w Hval Hv.
  set (r := val * 4095 / mVref d).
  assert (Hr : 0 <= r <= 4095).
  { split; [apply Z.div_pos; nia | apply Z.div_le_upper_bound; nia]. }
  assert (Hlo : r * mVref d <= val * 4095).
  { pose proof (Z.mul_div_le (val * 4095) (mVref d) ltac:(lia)).
    fold r in H. lia. }
  assert (Hhi : val * 4095 < (r + 1) * mVref d).
  { pose proof (Z.mul_succ_div_gt (val * 4095) (mVref d) ltac:(lia)).
    fold r in H. lia. }
  exists (r * mVref d / 4095). split; [|split].
  - unfold bind at 1. rewrite toDigital_eq by lia. fold r.
    apply toAnalog_eq; lia.
  - apply Z.div_le_upper_bound; lia.
  - pose proof (Z.mul_succ_div_gt (r * mVref d) 4095 ltac:(lia)). lia.
Qed.

Lemma toAnalog_toDigital_below_witness :
  exists back,
    (r <- toDigital 1234 ; toAnalog r)
      (MCP3208 3300 10 0, simulated [] []) =
      Done (back, (MCP3208 3300 10 0, simulated [] []))
    /\ back <= 1234
    /\ 4095 * (1234 - back) < mVref (MCP3208 3300 10 0) + 4095.
Proof.
  apply (toAnalog_toDigital_below 1234 (MCP3208 3300 10 0) (simulated [] []));
    by_value.
Defined.

(** X19. [getAnalogRes] is the reference voltage times 1000 over 4095,
    rounded down; the result is at most 16003 and is never cut by the
    16-bit return type. *)
Theorem getAnalogRes_value :
  forall (d : Device) (w : World),
    0 <= mVref d < 2 ^ 16 ->
    getAnalogRes (d, w) = Done (mVref d * 1000 / 4095, (d, w))
    /\ 0 <= mVref d * 1000 / 4095 <= 16003.
Proof.
  intros d w Hv.
  assert (Hq : 0 <= mVref d * 1000 / 4095 <= 16003).
  { split; [apply Z.div_pos; lia|].
    apply Z.lt_succ_r. apply Z.div_lt_upper_bound; lia. }
  split; [|exact Hq].
  unfold getAnalogRes, bind, this, ret. cbn [fst].
  change (kRes - 1) with 4095.
  rewrite (u32_small (mVref d)) by lia.
  rewrite u32_small by lia. rewrite u16_small by lia. reflexivity.
Qed.

Lemma getAnalogRes_value_witness :
  getAnalogRes (MCP3208 3300 10 0, simulated [] []) =
    Done (mVref (MCP3208 3300 10 0) * 1000 / 4095,
          (MCP3208 3300 10 0, simulated [] []))
  /\ 0 <= mVref (MCP3208 3300 10 0) * 1000 / 4095 <= 16003.
Proof.
  apply (getAnalogRes_value (MCP3208 3300 10 0) (simulated [] [])); by_value.
Defined.

(** ** What every call keeps of the platform *)

Section Keeps.

Context (I : State -> Prop).

Lemma keeps_ret {A} (a : A) : keeps I (ret a).
Proof. intros s a' s' Hs H. injection H as _ <-. exact Hs. Qed.

Lemma keeps_bind {A B} (m : M A) (k : A -> M B) :
  keeps I m -> (forall a, keeps I (k a)) -> keeps I (bind m k).
Proof.
  intros Hm Hk s b s' Hs H. unfold bind in H.
  destruct (m s) as [[a s1]| |] eqn:E; try discriminate H.
  exact (Hk a s1 b s' (Hm s a s1 Hs E) H).
Qed.

Lemma keeps_this : keeps I this.
Proof. intros s a s' Hs H. injection H as _ <-. exact Hs. Qed.

Lemma keeps_udiv n q : keeps I (udiv n q).
Proof.
  intros s a s' Hs H. unfold udiv in H.
  destruct (q =? 0); [discriminate H|]. injection H as _ <-. exact Hs.
Qed.

Lemma keeps_for_upto {A} (body : nat -> A -> M A) :
  (forall i acc, keeps I (body i acc)) ->
  forall n i acc, keeps I (for_upto n i body acc).
Proof.
  intros Hbody. induction n as [|n IH]; intros i acc; simpl.
  - apply keeps_ret.
  - apply keeps_bind; [apply Hbody | intros acc'; apply IH].
Qed.

Context (I_transfer : forall cmd, keeps I (transfer cmd)).
Context (I_micros : keeps I micros).
Context (I_delay : forall us, keeps I (delayMicroseconds us)).
Context (I_set : forall v, keeps I (set_mSplSpeed v)).

Lemma keeps_wait_until p cmd fuel : keeps I (wait_until fuel p cmd).
Proof.
  induction fuel as [|fuel IH]; simpl.
  - intros s a s' _ H. discriminate H.
  - apply keeps_bind; [apply I_transfer|].
    intros v. destruct (p v); [apply keeps_ret | exact IH].
Qed.

Ltac keeps_step :=
  first
    [ apply I_transfer | apply I_micros | apply I_delay | apply I_set
    | apply keeps_wait_until
    | apply keeps_ret | apply keeps_this | apply keeps_udiv
    | apply keeps_for_upto; intros ? ?
    | apply keeps_bind; [|intros ?]
    | match goal with
      | |- keeps _ (if ?c then _ else _) => destruct c
      end ].

Ltac keeps_all := repeat keeps_step.

Lemma keeps_testSplSpeed_n ch num : keeps I (testSplSpeed_n ch num).
Proof. unfold testSplSpeed_n, div_round, read. keeps_all. Qed.

Lemma keeps_calibrate ch : keeps I (calibrate ch).
Proof.
  unfold calibrate.
  apply keeps_bind; [apply keeps_testSplSpeed_n | intros v; apply I_set].
Qed.

Lemma keeps_getSplDelay ch f : keeps I (getSplDelay ch f).
Proof.
  unfold getSplDelay, div_round.
  apply keeps_bind; [apply keeps_udiv | intros splTime].
  apply keeps_bind; [apply keeps_this | intros d].
  apply keeps_bind.
  - destruct (mSplSpeed d =? 0); [apply keeps_calibrate | apply keeps_ret].
  - intros _. apply keeps_bind; [apply keeps_this | intros d'].
    apply keeps_ret.
Qed.

Ltac keeps_methods :=
  repeat first
    [ apply keeps_getSplDelay | apply keeps_calibrate
    | apply keeps_testSplSpeed_n | keeps_step ].

Lemma keeps_invoke fuel c : keeps I (invoke fuel c).
Proof.
  destruct c; unfold invoke;
    (apply keeps_bind; [|intros ?; apply keeps_ret]).
  - apply keeps_calibrate.
  - unfold read. keeps_methods.
  - unfold readn. keeps_methods.
  - unfold readn_if. keeps_methods.
  - unfold readn_at. keeps_methods.
  - unfold readn_if_at. keeps_methods.
  - unfold testSplSpeed. keeps_methods.
  - keeps_methods.
  - unfold testSplSpeed_at, div_round, read. keeps_methods.
  - unfold toAnalog. keeps_methods.
  - unfold toDigital. keeps_methods.
  - unfold getVref. keeps_methods.
  - unfold getAnalogRes. keeps_methods.
Qed.

Lemma keeps_run fuel cs : keeps I (run fuel cs).
Proof.
  induction cs as [|c cs IH]; cbn [run].
  - apply keeps_ret.
  - apply keeps_bind; [apply keeps_invoke | intros r].
    apply keeps_bind; [exact IH | intros rs; apply keeps_ret].
Qed.

End Keeps.

Lemma line_run_app cs low es1 es2 :
  line_run cs low (es1 ++ es2) =
    match line_run cs low es1 with
    | Some low' => line_run cs low' es2
    | None => None
    end.
Proof.
  revert low. induction es1 as [|e es1 IH]; intros low; simpl; [reflexivity|].
  destruct (line_step cs low e) as [low'|]; [apply IH | reflexivity].
Qed.

Lemma idle_transfer cs cmd : keeps (idle cs) (transfer cmd).
Proof.
  intros [d w] a [d' w'] [Hpin Hline] H. cbn [fst snd] in Hpin, Hline.
  rewrite transfer_eq in H. apply Done_inv in H as (_ & <- & <-).
  split; [exact Hpin|]. cbn [fst snd]. unfold after_transfer. cbn [trace].
  rewrite line_run_app, Hline. unfold transfer_events.
  cbn [line_run line_step]. rewrite Hpin, Z.eqb_refl. reflexivity.
Qed.

Lemma idle_micros cs : keeps (idle cs) micros.
Proof.
  intros [d w] a [d' w'] [Hpin Hline] H. cbn [fst snd] in Hpin, Hline.
  rewrite micros_eq in H. apply Done_inv in H as (_ & <- & <-).
  split; [exact Hpin|]. cbn [fst snd]. rewrite trace_after_micros.
  rewrite line_run_app, Hline. reflexivity.
Qed.

Lemma idle_delayMicroseconds cs us : keeps (idle cs) (delayMicroseconds us).
Proof.
  intros [d w] a [d' w'] [Hpin Hline] H. cbn [fst snd] in Hpin, Hline.
  unfold delayMicroseconds in H. apply Done_inv in H as (_ & <- & <-).
  split; [exact Hpin|]. unfold log. cbn [fst snd trace].
  rewrite line_run_app, Hline. reflexivity.
Qed.

Lemma idle_set_mSplSpeed cs v : keeps (idle cs) (set_mSplSpeed v).
Proof.
  intros [d w] a [d' w'] [Hpin Hline] H. cbn [fst snd] in Hpin, Hline.
  unfold set_mSplSpeed in H. apply Done_inv in H as (_ & <- & <-).
  split; [exact Hpin | exact Hline].
Qed.

Lemma whole_frames_transfer e0 cmd : keeps (whole_frames e0) (transfer cmd).
Proof.
  intros [d w] a [d' w'] [k Hk] H. cbn [snd] in Hk.
  rewrite transfer_eq in H. apply Done_inv in H as (_ & <- & <-).
  exists (S k). unfold after_transfer. cbn [snd exchanged]. lia.
Qed.

Lemma whole_frames_micros e0 : keeps (whole_frames e0) micros.
Proof.
  intros [d w] a [d' w'] [k Hk] H. cbn [snd] in Hk.
  rewrite micros_eq in H. apply Done_inv in H as (_ & <- & <-).
  exists k. exact Hk.
Qed.

Lemma whole_frames_delayMicroseconds e0 us :
  keeps (whole_frames e0) (delayMicroseconds us).
Proof.
  intros [d w] a [d' w'] [k Hk] H. cbn [snd] in Hk.
  unfold delayMicroseconds in H. apply Done_inv in H as (_ & <- & <-).
  exists k. exact Hk.
Qed.

Lemma whole_frames_set_mSplSpeed e0 v :
  keeps (whole_frames e0) (set_mSplSpeed v).
Proof.
  intros [d w] a [d' w'] [k Hk] H. cbn [snd] in Hk.
  unfold set_mSplSpeed in H. apply Done_inv in H as (_ & <- & <-).
  exists k. exact Hk.
Qed.

(** X20. The select line is driven with discipline by every method and
    every sequence of calls: starting from a deselected device, when the
    calls return the device is deselected again, on the same pin; in
    between the line only toggled, every byte was exchanged while it was
    low, and every clock reading and every delay was taken while it was
    high.  The bus has carried a whole number of three-byte frames. *)
Theorem select_line_discipline :
  forall (fuel : nat) (cs : list Call) (d : Device) (w : World)
         (rs : list Reply) (d' : Device) (w' : World),
    line_run (mCsPin d) false (trace w) = Some false ->
    run fuel cs (d, w) = Done (rs, (d', w')) ->
    line_run (mCsPin d) false (trace w') = Some false
    /\ mCsPin d' = mCsPin d
    /\ exists k : nat, exchanged w' = (exchanged w + 3 * k)%nat.
Proof.
  intros fuel cs d w rs d' w' Hline Hrun.
  assert (Hidle : idle (mCsPin d) (d', w')).
  { apply (keeps_run (idle (mCsPin d)) (idle_transfer _) (idle_micros _)
             (idle_delayMicroseconds _) (idle_set_mSplSpeed _)
             fuel cs (d, w) rs (d', w')); [|exact Hrun].
    split; [reflexivity | exact Hline]. }
  assert (Hframes : whole_frames (exchanged w) (d', w')).
  { apply (keeps_run (whole_frames (exchanged w)) (whole_frames_transfer _)
             (whole_frames_micros _) (whole_frames_delayMicroseconds _)
             (whole_frames_set_mSplSpeed _)
             fuel cs (d, w) rs (d', w')); [|exact Hrun].
    exists 0%nat. cbn [snd]. lia. }
  destruct Hidle as [Hpin Hl]. cbn [fst snd] in Hpin, Hl.
  split; [exact Hl|]. split; [exact Hpin | exact Hframes].
Qed.

Lemma select_line_discipline_witness :
  run 0 [Read 0; Read 0]
    (MCP3208 3300 10 0, simulated (frames [5; 7]) []) =
    Done ([Word 5; Word 7],
          (MCP3208 3300 10 0,
           after_burst (MCP3208 3300 10 0) (createCmd 0) None 2
             (simulated (frames [5; 7]) [])))
  /\ line_run 10 false
       (trace (after_burst (MCP3208 3300 10 0) (createCmd 0) None 2
                 (simulated (frames [5; 7]) []))) = Some false.
Proof.
  assert (H : run 0 [Read 0; Read 0]
                (MCP3208 3300 10 0, simulated (frames [5; 7]) []) =
              Done ([Word 5; Word 7],
                    (MCP3208 3300 10 0,
                     after_burst (MCP3208 3300 10 0) (createCmd 0) None 2
                       (simulated (frames [5; 7]) []))))
    by reflexivity.
  split; [exact H|].
  exact (proj1 (select_line_discipline 0 [Read 0; Read 0]
                  (MCP3208 3300 10 0) (simulated (frames [5; 7]) [])
                  _ _ _ eq_refl H)).
Defined.

Lemma invoke_read fuel ch d w :
  invoke fuel (Read ch) (d, w) =
    Done (Word (sample_at w 0), (d, after_transfer d (createCmd ch) w)).
Proof.
  unfold invoke, read. rewrite (bind_done _ _ _ _ _ (transfer_eq _ d w)).
  reflexivity.
Qed.

Lemma run_reads fuel ch d n :
  forall w,
    run fuel (repeat (Read ch) n) (d, w) =
      Done (map Word (map (sample_at w) (seq 0 n)),
            (d, after_burst d (createCmd ch) None n w)).
Proof.
  induction n as [|n IH]; intros w; [reflexivity|].
  cbn [repeat run].
  rewrite (bind_done _ _ _ _ _ (invoke_read fuel ch d w)).
  rewrite (bind_done _ _ _ _ _ (IH (after_transfer d (createCmd ch) w))).
  unfold ret. cbn [seq map after_burst after_pause]. f_equal. f_equal.
  f_equal. f_equal.
  rewrite <- seq_shift, map_map.
  apply map_ext. intros k. apply sample_at_after_transfer.
Qed.

(** X21. A fixed-count read is [num] single reads: [readn] stores, in
    order, the values that [num] successive calls of [read] on the same
    channel return, and leaves object and platform exactly as those calls
    leave them. *)
Theorem readn_is_repeated_read :
  forall (fuel : nat) (ch : Z) (data : list Z) (num : Z)
         (d : Device) (w : World),
    (Z.to_nat num <= length data)%nat ->
    exists (vs : list Z) (s' : State),
      run fuel (repeat (Read ch) (Z.to_nat num)) (d, w) =
        Done (map Word vs, s')
      /\ readn ch data num (d, w) =
           Done (vs ++ drop (Z.to_nat num) data, s')
      /\ length vs = Z.to_nat num.
Proof.
  intros fuel ch data num d w Hlen.
  exists (map (sample_at w) (seq 0 (Z.to_nat num))),
         (d, after_burst d (createCmd ch) None (Z.to_nat num) w).
  split; [apply run_reads|]. split.
  - unfold readn.
    rewrite (for_upto_collect (createCmd ch) None) by (apply store_body || lia).
    reflexivity.
  - rewrite length_map, length_seq. reflexivity.
Qed.

Lemma readn_is_repeated_read_witness :
  exists (vs : list Z) (s' : State),
    run 0 (repeat (Read 0) (Z.to_nat 2))
      (MCP3208 3300 10 0, simulated (frames [5; 7]) []) =
      Done (map Word vs, s')
    /\ readn 0 [9; 9; 9] 2
         (MCP3208 3300 10 0, simulated (frames [5; 7]) []) =
         Done (vs ++ drop (Z.to_nat 2) [9; 9; 9], s')
    /\ length vs = Z.to_nat 2.
Proof.
  apply (readn_is_repeated_read 0 0 [9; 9; 9] 2 (MCP3208 3300 10 0)
           (simulated (frames [5; 7]) [])).
  simpl. lia.
Defined.
